(** * safemodel.classifiers.safekeras: snapshot comparison and release checks

    A shallow embedding of [safekeras.py]: the two checkpoint comparators
    ([same_configs], [same_weights], [test_checkpoint_equality]) and the
    methods of [Safe_KerasModel] that decide whether a fitted model may be
    released ([dp_epsilon_met], [check_epsilon], [check_DP_used],
    [check_optimizer_allowed], [posthoc_check], [save], [load]).

    External collaborators (dictdiffer, the tensorflow-privacy accountant,
    Python's float formatting) are interfaces; numpy's [array_equal] and the
    Python object model needed by the checks are written out. *)

From Stdlib Require Import QArith Ascii String.
From stdpp Require Import gmap strings list pretty.

Local Open Scope string_scope.

(** ** Python values *)

(** A Python float seen through its comparisons: a finite float is the
    rational it denotes, and the three special values keep their IEEE
    behaviour ([nan] is neither equal to nor below anything). *)
Inductive pyfloat :=
  | Finite (q : Q)
  | PosInf
  | NegInf
  | NaN.

(** [x == y] on floats. *)
Definition float_eqb (x y : pyfloat) : bool :=
  match x, y with
  | Finite a, Finite b => Qeq_bool a b
  | PosInf, PosInf => true
  | NegInf, NegInf => true
  | _, _ => false
  end.

(** [x < y] on floats. *)
Definition float_ltb (x y : pyfloat) : bool :=
  match x, y with
  | NaN, _ | _, NaN => false
  | _, NegInf => false
  | PosInf, _ => false
  | NegInf, _ => true
  | Finite _, PosInf => true
  | Finite a, Finite b => negb (Qle_bool b a)
  end.

Definition is_nan (x : pyfloat) : bool :=
  match x with NaN => true | _ => false end.

(** The scalar values that occur as attributes and as return values. *)
Inductive pyval :=
  | PyNone
  | PyBool (b : bool)
  | PyInt (z : Z)
  | PyStr (s : string).

(** Truth value of an object, as tested by [if] and [not]. *)
Definition truthy (v : pyval) : bool :=
  match v with
  | PyNone => false
  | PyBool b => b
  | PyInt z => negb (z =? 0)%Z
  | PyStr s => negb (String.eqb s "")
  end.

(** The text an f-string gives for a value. *)
Definition pyval_str (v : pyval) : string :=
  match v with
  | PyNone => "None"
  | PyBool true => "True"
  | PyBool false => "False"
  | PyInt z => pretty z
  | PyStr s => s
  end.

(** [v == True] and [v == False]: a bool is an int, so [1 == True]. *)
Definition eq_True (v : pyval) : bool :=
  match v with
  | PyBool b => b
  | PyInt z => (z =? 1)%Z
  | _ => false
  end.

Definition eq_False (v : pyval) : bool :=
  match v with
  | PyBool b => negb b
  | PyInt z => (z =? 0)%Z
  | _ => false
  end.

(** An optimizer as the checks see it: either a plain string, or an object
    (a class or an instance) with its [__dict__] and the text [str] gives. *)
Inductive pyobj :=
  | StrObj (s : string)
  | Obj (repr : string) (dict : gmap string pyval).

Definition str_of (o : pyobj) : string :=
  match o with
  | StrObj s => s
  | Obj repr _ => repr
  end.

(** [o in l] for a list of strings: an object that is not a string is
    equal to none of them. *)
Definition in_strings (o : pyobj) (l : list string) : bool :=
  match o with
  | StrObj s => existsb (String.eqb s) l
  | Obj _ _ => false
  end.

Definition nl : string := String "010"%char "".

(** [sub in s] for strings. *)
Fixpoint contains (sub s : string) : bool :=
  String.prefix sub s ||
  match s with
  | "" => false
  | String _ s' => contains sub s'
  end.

(** ** numpy arrays *)

Module np.

Record ndarray := mk_ndarray {
  shape : list nat;
  data : list pyfloat
}.

Fixpoint all_equal (xs ys : list pyfloat) : bool :=
  match xs, ys with
  | [], [] => true
  | x :: xs', y :: ys' => float_eqb x y && all_equal xs' ys'
  | _, _ => false
  end.

(** [np.array_equal(a1, a2)]: same shape and [(a1 == a2).all()]. *)
Definition array_equal (a1 a2 : ndarray) : bool :=
  if decide (shape a1 = shape a2) then all_equal (data a1) (data a2)
  else false.

Definition has_nan (a : ndarray) : bool := existsb is_nan (data a).

Global Instance ndarray_inhabited : Inhabited ndarray :=
  populate (mk_ndarray [] []).

End np.

(** ** dictdiffer *)

(** [dictdiffer.diff] as [same_configs] uses it: the list of tuples that
    [diff(a, b, expand=True)] yields, and the texts an f-string gives for a
    tuple and for its fields. *)
Class DictDiffer (config : Type) := {
  change : Type;
  diff : config -> config -> list change;
  change_kind : change -> string;      (* match[i][0] *)
  change_path : change -> string;      (* {match[i][1]} *)
  change_first : change -> string;     (* {match[i][2][0]} *)
  change_second : change -> string;    (* {match[i][2][1]} *)
  change_str : change -> string        (* {match[i]} *)
}.

(** ** Models and the two comparators *)

Section Comparators.

Context {config : Type} `{DictDiffer config}.

Record keras_layer := mk_layer {
  get_config : config;
  get_weights : list np.ndarray
}.

(** What the comparators read of a Keras model: [m.layers]. *)
Definition model := list keras_layer.

Fixpoint changes_msg (match_ : list change) : string :=
  match match_ with
  | [] => ""
  | c :: rest =>
      (if String.eqb (change_kind c) "change"
       then "parameter " +:+ change_path c +:+ " changed from "
            +:+ change_second c +:+ " "
            +:+ "to " +:+ change_first c
            +:+ " after model was fitted." +:+ nl
       else change_str c)
      +:+ changes_msg rest
  end.

(** The loop of [same_configs] from index [layer] on; the two lists are
    the layers not yet visited. *)
Fixpoint configs_from (layer : nat) (l1 l2 : model) : bool * string :=
  match l1, l2 with
  | x1 :: r1, x2 :: r2 =>
      let m1_layer_config := get_config x1 in
      let m2_layer_config := get_config x2 in
      let match_ := diff m1_layer_config m2_layer_config in
      if (0 <? length match_)%nat
      then (false,
            "Layer " +:+ pretty layer +:+ " configs differ in "
            +:+ pretty (length match_) +:+ " places:" +:+ nl
            +:+ changes_msg match_)
      else configs_from (S layer) r1 r2
  | _, _ => (true, "configurations match")
  end.

Definition same_configs (m1 m2 : model) : bool * string :=
  if negb (length m1 =? length m2)%nat
  then (false, "different numbers of layers")
  else configs_from 0 m1 m2.

(** The inner loop of [same_weights] over [dim]; both arrays compared
    are read from [m2layer], as in the source. *)
Fixpoint weights_dims (layer : nat) (dims : list nat)
    (m1layer m2layer : list np.ndarray) : option (bool * string) :=
  match dims with
  | [] => None
  | dim :: rest =>
      let m1d := m2layer !!! dim in
      let m2d := m2layer !!! dim in
      if negb (np.array_equal m1d m2d)
      then Some (false,
                 "dimension " +:+ pretty dim +:+ " of layer "
                 +:+ pretty layer +:+ " differs")
      else weights_dims layer rest m1layer m2layer
  end.

Fixpoint weights_from (layer : nat) (l1 l2 : model) : bool * string :=
  match l1, l2 with
  | x1 :: r1, x2 :: r2 =>
      let m1layer := get_weights x1 in
      let m2layer := get_weights x2 in
      if negb (length m1layer =? length m2layer)%nat
      then (false, "layer " +:+ pretty layer +:+ " not the same size.")
      else
        match weights_dims layer (seq 0 (length m1layer)) m1layer m2layer with
        | Some r => r
        | None => weights_from (S layer) r1 r2
        end
  | _, _ => (true, "weights match")
  end.

Definition same_weights (m1 m2 : model) : bool * string :=
  if negb (length m1 =? length m2)%nat
  then (false, "different numbers of layers")
  else weights_from 0 m1 m2.

End Comparators.

Arguments keras_layer config : clear implicits.
Arguments model config : clear implicits.

(** ** Exceptions, outcomes and strings *)

Inductive exn_class :=
  | AttributeError
  | ZeroDivisionError
  | OSError
  | EOFError
  | UnboundLocalError
  | OtherError.

(** A raised exception: its class and the text [str(e)] gives. *)
Record exn := Exn {
  exn_cls : exn_class;
  exn_msg : string
}.

(** How a call ends. [OutOfFuel] is the model's only artefact: a loop that
    was cut after the number of iterations the caller allowed. *)
Inductive outcome (A : Type) :=
  | Return (a : A)
  | Raise (e : exn)
  | OutOfFuel.

Arguments Return {A} a.
Arguments Raise {A} e.
Arguments OutOfFuel {A}.

(** [s.split(sep)] for a one-character separator. *)
Fixpoint split_on (sep : ascii) (s : string) : list string :=
  match s with
  | "" => [""]
  | String c s' =>
      if Ascii.eqb c sep then "" :: split_on sep s'
      else match split_on sep s' with
           | [] => [String c ""]
           | w :: ws => String c w :: ws
           end
  end.

(** [s[-3:]]. *)
Definition last3 (s : string) : string :=
  substring (String.length s - 3) 3 s.

(** ** The model object and its surroundings *)

Section SafeKeras.

Context {config : Type} `{DictDiffer config}.

(** [compute_dp_sgd_privacy.compute_dp_sgd_privacy(n, batch_size,
    noise_multiplier, epochs, delta)] of tensorflow-privacy: it returns
    the pair (epsilon, optimal order) or raises. *)
Variable compute_dp_sgd_privacy :
  Z -> Z -> pyfloat -> Z -> pyfloat -> exn + (pyfloat * pyfloat).

(** The text an f-string gives for a float. *)
Variable float_str : pyfloat -> string.

(** The attributes of a [Safe_KerasModel] that the checks read or write.
    An attribute that is assigned only by some method is [None] until
    then, and reading it raises [AttributeError]. *)
Record Safe_KerasModel := mk_self {
  layers : model config;
  optimizer : pyobj;
  noise_multiplier : pyfloat;
  delta : pyfloat;
  min_epsilon : pyfloat;
  num_samples : Z;
  batch_size : Z;
  epochs : Z;
  model_type : string;
  current_epsilon : option pyfloat;
  saved_was_dpused : option bool;
  saved_reason : option string;
  saved_epsilon : option pyfloat;
  model_save_file : option string;
  model_load_file : option string
}.

(** What lies outside the object: the checkpoints on disk by path, an
    error that writing a checkpoint raises (if any), the lines waiting
    on standard input, and the texts printed so far. *)
Record world := mk_world {
  files : gmap string (model config);
  write_error : option exn;
  stdin : nat -> option string;
  stdin_pos : nat;
  stdout : list string
}.

Definition state : Type := Safe_KerasModel * world.

Definition M (A : Type) : Type := state -> outcome A * state.

Definition ret {A} (a : A) : M A := fun s => (Return a, s).

Definition raise {A} (e : exn) : M A := fun s => (Raise e, s).

Definition out_of_fuel {A} : M A := fun s => (OutOfFuel, s).

Definition bind {A B} (m : M A) (k : A -> M B) : M B :=
  fun s =>
    match m s with
    | (Return a, s') => k a s'
    | (Raise e, s') => (Raise e, s')
    | (OutOfFuel, s') => (OutOfFuel, s')
    end.

Definition lift_result {A} (r : exn + A) : M A :=
  match r with
  | inl e => raise e
  | inr a => ret a
  end.

Definition gets {A} (f : Safe_KerasModel -> A) : M A :=
  fun s => (Return (f (fst s)), s).

Definition modify (f : Safe_KerasModel -> Safe_KerasModel) : M unit :=
  fun s => (Return tt, (f (fst s), snd s)).

Definition gets_world {A} (f : world -> A) : M A :=
  fun s => (Return (f (snd s)), s).

Definition modify_world (f : world -> world) : M unit :=
  fun s => (Return tt, (fst s, f (snd s))).

(** [self.attr] for an attribute that may not have been assigned. *)
Definition getattr {A} (name : string)
    (f : Safe_KerasModel -> option A) : M A :=
  fun s =>
    match f (fst s) with
    | Some a => (Return a, s)
    | None =>
        (Raise (Exn AttributeError
                  ("'Safe_KerasModel' object has no attribute '"
                   +:+ name +:+ "'")), s)
    end.

Notation "x <- c ;; k" := (bind c (fun x => k))
  (at level 100, c at next level, right associativity).
Notation "c ;; k" := (bind c (fun _ => k))
  (at level 100, right associativity).

(** *** Assignments to attributes *)

Definition set_current_epsilon (v : pyfloat) (o : Safe_KerasModel) :=
  mk_self (layers o) (optimizer o) (noise_multiplier o) (delta o)
    (min_epsilon o) (num_samples o) (batch_size o) (epochs o)
    (model_type o) (Some v) (saved_was_dpused o) (saved_reason o)
    (saved_epsilon o) (model_save_file o) (model_load_file o).

Definition set_saved (used : bool) (reason : string)
    (o : Safe_KerasModel) :=
  mk_self (layers o) (optimizer o) (noise_multiplier o) (delta o)
    (min_epsilon o) (num_samples o) (batch_size o) (epochs o)
    (model_type o) (current_epsilon o) (Some used) (Some reason)
    (saved_epsilon o) (model_save_file o) (model_load_file o).

Definition set_saved_epsilon (v : pyfloat) (o : Safe_KerasModel) :=
  mk_self (layers o) (optimizer o) (noise_multiplier o) (delta o)
    (min_epsilon o) (num_samples o) (batch_size o) (epochs o)
    (model_type o) (current_epsilon o) (saved_was_dpused o)
    (saved_reason o) (Some v) (model_save_file o) (model_load_file o).

Definition set_model_save_file (v : string) (o : Safe_KerasModel) :=
  mk_self (layers o) (optimizer o) (noise_multiplier o) (delta o)
    (min_epsilon o) (num_samples o) (batch_size o) (epochs o)
    (model_type o) (current_epsilon o) (saved_was_dpused o)
    (saved_reason o) (saved_epsilon o) (Some v) (model_load_file o).

Definition set_model_load_file (v : string) (o : Safe_KerasModel) :=
  mk_self (layers o) (optimizer o) (noise_multiplier o) (delta o)
    (min_epsilon o) (num_samples o) (batch_size o) (epochs o)
    (model_type o) (current_epsilon o) (saved_was_dpused o)
    (saved_reason o) (saved_epsilon o) (model_save_file o) (Some v).

Definition set_fit_params (n b e : Z) (o : Safe_KerasModel) :=
  mk_self (layers o) (optimizer o) (noise_multiplier o) (delta o)
    (min_epsilon o) n b e
    (model_type o) (current_epsilon o) (saved_was_dpused o)
    (saved_reason o) (saved_epsilon o) (model_save_file o)
    (model_load_file o).

Definition set_trained (ls : model config) (opt : pyobj)
    (o : Safe_KerasModel) :=
  mk_self ls opt (noise_multiplier o) (delta o)
    (min_epsilon o) (num_samples o) (batch_size o) (epochs o)
    (model_type o) (current_epsilon o) (saved_was_dpused o)
    (saved_reason o) (saved_epsilon o) (model_save_file o)
    (model_load_file o).

(** *** Input and output *)

Definition print (text : string) : M unit :=
  modify_world (fun w =>
    mk_world (files w) (write_error w) (stdin w) (stdin_pos w)
      (stdout w ++ [text])).

(** [input(prompt)]: the prompt is written out and the next line is
    read; at the end of the input [EOFError] is raised. *)
Definition input (prompt : string) : M string :=
  print prompt ;;
  w <- gets_world id ;;
  match stdin w (stdin_pos w) with
  | Some line =>
      modify_world (fun w =>
        mk_world (files w) (write_error w) (stdin w) (S (stdin_pos w))
          (stdout w)) ;;
      ret line
  | None => raise (Exn EOFError "EOF when reading a line")
  end.

(** [tf.keras.models.load_model(path)]. Keras is not part of this code:
    [fs] holds, under each path, the model that Keras reads back from it,
    and a path from which it reads nothing raises. *)
Definition load_model (fs : gmap string (model config)) (path : string)
    : exn + model config :=
  match fs !! path with
  | Some m => inr m
  | None => inl (Exn OSError ("No file or directory found at " +:+ path))
  end.

(** [tf.keras.models.save_model(self, path, include_optimizer=False)]:
    the layers are written under the path, as a checkpoint that Keras
    reads back as written. *)
Definition write_file (path : string) (m : model config) (w : world) :=
  mk_world (<[path := m]> (files w)) (write_error w) (stdin w)
    (stdin_pos w) (stdout w).

(** *** test_checkpoint_equality *)

Definition test_checkpoint_equality (fs : gmap string (model config))
    (v1 v2 : string) : bool * string :=
  let msg := "" in
  let same := true in
  match load_model fs v1 with
  | inl e =>
      (false, "Error re-loading  model from " +:+ v1 +:+ ":  " +:+ exn_msg e)
  | inr model1 =>
      match load_model fs v2 with
      | inl e =>
          (false,
           "Error re-loading  model from " +:+ v2 +:+ ": " +:+ exn_msg e)
      | inr model2 =>
          let '(same_config, config_message) := same_configs model1 model2 in
          let msg := if negb same_config then msg +:+ config_message
                     else msg in
          let '(same_weight, weights_message) :=
            same_weights model1 model2 in
          let msg := if negb same_weight then msg +:+ weights_message
                     else msg in
          (same, msg)
      end
  end.

(** *** The privacy budget *)

Definition dp_epsilon_met (num_examples batch_size epochs : Z)
    : M (bool * pyfloat) :=
  nm <- gets noise_multiplier ;;
  d <- gets delta ;;
  privacy <- lift_result
    (compute_dp_sgd_privacy num_examples batch_size nm epochs d) ;;
  me <- gets min_epsilon ;;
  let ok := if float_ltb (fst privacy) me then true else false in
  ret (ok, fst privacy).

Definition check_epsilon (num_samples batch_size epochs : Z)
    : M (bool * string) :=
  batch_size <-
    (if (batch_size =? 0)%Z
     then print "Division by zero setting batch_size =1" ;; ret 1%Z
     else ret batch_size) ;;
  met <- dp_epsilon_met num_samples batch_size epochs ;;
  let '(ok, eps) := met in
  modify (set_current_epsilon eps) ;;
  current <- getattr "current_epsilon" current_epsilon ;;
  let msg :=
    if ok
    then "The requirements for DP are met, "
         +:+ "current epsilon is: " +:+ float_str current +:+ "."
         +:+ "Calculated from the parameters:  "
         +:+ "Num Samples = " +:+ pretty num_samples +:+ ", "
         +:+ "batch_size = " +:+ pretty batch_size
         +:+ ", epochs = " +:+ pretty epochs +:+ "." +:+ nl
    else "The requirements for DP are not met, "
         +:+ "current epsilon is: " +:+ float_str current +:+ "." +:+ nl
         +:+ "To attain recommended DP the following parameters can be changed:  "
         +:+ "Num Samples = " +:+ pretty num_samples +:+ ","
         +:+ "batch_size = " +:+ pretty batch_size +:+ ","
         +:+ "epochs = " +:+ pretty epochs +:+ "." +:+ nl in
  print msg ;;
  ret (ok, msg).

(** *** The optimizer checks *)

Definition check_DP_used (opt : pyobj) : exn + (bool * string) :=
  match opt with
  | StrObj _ =>
      inl (Exn AttributeError "'str' object has no attribute '__dict__'")
  | Obj _ dict =>
      match dict !! "_was_dp_gradients_called" with
      | None =>
          inr (false,
               "optimizer does not contain key _was_dp_gradients_called "
               +:+ "so is not DP.")
      | Some flag =>
          if eq_False flag
          then inr (false,
                    "optimizer has been changed but fit() has not been rerun.")
          else if eq_True flag
          then inr (true,
                    " value of optimizer._was_dp_gradients_called is True, "
                    +:+ "so DP variant of optimizer has been run")
          else inr (false, "unrecognised combination")
      end
  end.

Definition allowed_optimizers : list string :=
  [ "tensorflow_privacy.DPKerasAdagradOptimizer";
    "tensorflow_privacy.DPKerasAdamOptimizer";
    "tensorflow_privacy.DPKerasSGDOptimizer" ].

(** The argument is not read: the method tests [self.optimizer]. It
    returns [reason, disclosive], in this order. *)
Definition check_optimizer_allowed (opt : pyobj) : M (pyval * pyval) :=
  self_optimizer <- gets optimizer ;;
  print (str_of self_optimizer) ;;
  if in_strings self_optimizer allowed_optimizers
  then
    let disclosive := false in
    let reason := "optimizer " +:+ str_of self_optimizer +:+ " allowed" in
    ret (PyStr reason, PyBool disclosive)
  else
    let disclosive := true in
    let reason :=
      "optimizer " +:+ str_of self_optimizer +:+ " is not allowed" in
    ret (PyStr reason, PyBool disclosive).

(** *** save and load *)

(** The prompt loop of [save]: one unit of fuel for each line read. *)
Fixpoint save_prompt (fuel : nat) : M unit :=
  name <- getattr "model_save_file" model_save_file ;;
  if String.eqb name "undefined"
  then
    match fuel with
    | O => out_of_fuel
    | S fuel' =>
        line <- input
          "Please input a name with extension for the model to be saved." ;;
        modify (set_model_save_file line) ;;
        save_prompt fuel'
    end
  else ret tt.

Definition save (fuel : nat) (name : string) : M unit :=
  modify (set_model_save_file name) ;;
  save_prompt fuel ;;
  file <- getattr "model_save_file" model_save_file ;;
  let thename := split_on "." file in
  if (length thename =? 1)%nat
  then print "file name must indicate type as a suffix"
  else
    let suffix := List.last (split_on "." file) "" in
    if existsb (String.eqb suffix) ["h5"; "tf"]
    then
      failure <- gets_world write_error ;;
      match failure with
      | None =>
          ls <- gets layers ;;
          modify_world (write_file file ls)
      | Some er =>
          print ("saving as a " +:+ suffix
                 +:+ " file gave this error message:  " +:+ exn_msg er)
      end
    else
      kind <- gets model_type ;;
      print (suffix +:+ " file suffix  not supported "
             +:+ "for models of type " +:+ kind +:+ "." +:+ nl).

(** The prompt loop of [load]: it tests [model_load_file] and assigns
    the line read to [model_save_file]. *)
Fixpoint load_prompt (fuel : nat) : M unit :=
  name <- getattr "model_load_file" model_load_file ;;
  if String.eqb name "undefined"
  then
    match fuel with
    | O => out_of_fuel
    | S fuel' =>
        line <- input
          "Please input a name with extension for the model to load." ;;
        modify (set_model_save_file line) ;;
        load_prompt fuel'
    end
  else ret tt.

Definition load (fuel : nat) (name : string) : M (model config) :=
  modify (set_model_load_file name) ;;
  load_prompt fuel ;;
  file <- getattr "model_load_file" model_load_file ;;
  fs <- gets_world files ;;
  if String.eqb (last3 file) ".h5"
  then lift_result (load_model fs file)
  else if String.eqb (last3 file) ".tf"
  then lift_result (load_model fs file)
  else
    let suffix := List.last (split_on "." file) "" in
    print ("loading from a " +:+ suffix
           +:+ " file is currently not supported") ;;
    raise (Exn UnboundLocalError
             "local variable 'f' referenced before assignment").

(** *** fit *)

(** [super().fit(X, Y, validation_data=..., epochs=..., batch_size=...)]
    of Keras on the caller's data: from the layers and the optimizer it
    gives the history it returns, the trained layers and the optimizer
    as training leaves it, or raises. *)
Variable history : Type.
Variable keras_fit :
  model config -> pyobj -> Z -> Z -> exn + (history * model config * pyobj).

(** [X_rows] is [X.shape[0]]. The directory [tfsaves] is created when
    missing; checkpoints are kept by path. *)
Definition fit (fuel : nat) (X_rows : Z) (epochs batch_size : Z)
    (refine_epsilon : bool) : M (option history) :=
  modify (set_fit_params X_rows batch_size epochs) ;;
  checked <- check_epsilon X_rows batch_size epochs ;;
  let '(ok, msg) := checked in
  (if negb ok then print msg else ret tt) ;;
  if refine_epsilon
  then
    print ("Not continuing with fitting model, "
           +:+ "as return epsilon was above max recomneded value, "
           +:+ "and user set refine_epsilon= True") ;;
    ret None
  else
    ls <- gets layers ;;
    opt <- gets optimizer ;;
    trained <- lift_result (keras_fit ls opt epochs batch_size) ;;
    let '(returnval, ls', opt') := trained in
    modify (set_trained ls' opt') ;;
    save fuel "tfsaves/fit_model.tf" ;;
    opt <- gets optimizer ;;
    used <- lift_result (check_DP_used opt) ;;
    modify (set_saved (fst used) (snd used)) ;;
    current <- getattr "current_epsilon" current_epsilon ;;
    modify (set_saved_epsilon current) ;;
    ret (Some returnval).

(** *** posthoc_check *)

(** The test of the fourth check: [or] evaluates its operands from the
    left and stops at the first that holds. *)
Definition changed_since_fit (dpused : bool) (dpusedmessage : string)
    : M bool :=
  was_used <- getattr "saved_was_dpused" saved_was_dpused ;;
  if negb (Bool.eqb dpused was_used) then ret true
  else
    reason <- getattr "saved_reason" saved_reason ;;
    if negb (String.eqb dpusedmessage reason) then ret true
    else
      saved <- getattr "saved_epsilon" saved_epsilon ;;
      current <- getattr "current_epsilon" current_epsilon ;;
      ret (negb (float_eqb saved current)).

Definition posthoc_check (fuel : nat) (verbose : bool)
    : M (pyval * bool) :=
  save fuel "tfsaves/requested_model.tf" ;;
  fs <- gets_world files ;;
  let '(models_same, same_msg) :=
    test_checkpoint_equality fs
      "tfsaves/fit_model.tf" "tfsaves/requested_model.tf" in
  if negb models_same
  then
    print ("Recommendation is not to release because "
           +:+ same_msg +:+ "." +:+ nl) ;;
    ret (PyStr same_msg, true)
  else
    opt <- gets optimizer ;;
    answer <- check_optimizer_allowed opt ;;
    let '(allowed, allowedmessage) := answer in
    if negb (truthy allowed)
    then
      print ("Recommendation is not to release because "
             +:+ pyval_str allowedmessage +:+ "." +:+ nl) ;;
      ret (allowedmessage, true)
    else
      opt <- gets optimizer ;;
      used <- lift_result (check_DP_used opt) ;;
      let '(dpused, dpusedmessage) := used in
      if negb dpused
      then
        print ("Recommendation is not to release because "
               +:+ dpusedmessage +:+ "." +:+ nl) ;;
        ret (PyStr dpusedmessage, true)
      else
        changed <- changed_since_fit dpused dpusedmessage ;;
        if changed
        then
          ret (PyStr "Optimizer config has been changed since training.",
               true)
        else
          n <- gets num_samples ;;
          b <- gets batch_size ;;
          e <- gets epochs ;;
          met <- dp_epsilon_met n b e ;;
          let '(eps_met, eps) := met in
          if negb eps_met
          then
            let dpepsilonmessage :=
              "WARNING: epsilon " +:+ float_str eps +:+ " "
              +:+ "is above normal max recommended value." +:+ nl
              +:+ "Discussion with researcher needed." +:+ nl in
            print ("Recommendation is further discussion needed "
                   +:+ dpepsilonmessage +:+ "." +:+ nl) ;;
            ret (PyStr dpepsilonmessage, true)
          else
            print ("Recommendation is to allow release." +:+ nl) ;;
            let dpepsilonmessage :=
              "Recommendation: Allow release." +:+ nl
              +:+ "Epsilon vale of model " +:+ float_str eps +:+ " "
              +:+ "is below normal max recommended value." +:+ nl in
            ret (PyStr dpepsilonmessage, false).

End SafeKeras.

Arguments Safe_KerasModel config : clear implicits.
Arguments world config : clear implicits.
Arguments state config : clear implicits.

(** ** dictdiffer on flat configurations *)

(** The behaviour of [dictdiffer.diff(first, second, expand=True)] on
    dictionaries whose values are scalars: the keys of both with values
    that differ give a [change], then the keys only in [second] an [add]
    each, then the keys only in [first] a [remove] each. *)
Module flat.

Definition config : Type := list (string * pyval).

Definition get (d : config) (key : string) : option pyval :=
  snd <$> List.find (fun kv => String.eqb (fst kv) key) d.

Inductive change :=
  | Changed (key : string) (first second : pyval)
  | Added (key : string) (value : pyval)
  | Removed (key : string) (value : pyval).

Definition as_int (v : pyval) : option Z :=
  match v with
  | PyBool b => Some (if b then 1 else 0)%Z
  | PyInt z => Some z
  | _ => None
  end.

(** [first == second]. *)
Definition py_eqb (a b : pyval) : bool :=
  match a, b with
  | PyNone, PyNone => true
  | PyStr s, PyStr t => String.eqb s t
  | _, _ =>
      match as_int a, as_int b with
      | Some x, Some y => (x =? y)%Z
      | _, _ => false
      end
  end.

(** [math.isclose(a, b, rel_tol=sys.float_info.epsilon)]. *)
Definition isclose (a b : Z) : bool :=
  (2 ^ 52 * Z.abs (a - b) <=? Z.max (Z.abs a) (Z.abs b))%Z.

Definition are_different (a b : pyval) : bool :=
  if py_eqb a b then false
  else
    match as_int a, as_int b with
    | Some x, Some y => negb (isclose x y)
    | _, _ => true
    end.

Definition diff (first second : config) : list change :=
  omap (fun kv =>
          match get second (fst kv) with
          | Some v2 =>
              if are_different (snd kv) v2
              then Some (Changed (fst kv) (snd kv) v2)
              else None
          | None => None
          end) first
  ++ omap (fun kv =>
             match get first (fst kv) with
             | None => Some (Added (fst kv) (snd kv))
             | Some _ => None
             end) second
  ++ omap (fun kv =>
             match get second (fst kv) with
             | None => Some (Removed (fst kv) (snd kv))
             | Some _ => None
             end) first.

(** [repr] of a value; a string is taken to need no escapes. *)
Definition repr (v : pyval) : string :=
  match v with
  | PyStr s => "'" +:+ s +:+ "'"
  | _ => pyval_str v
  end.

Definition kind (c : change) : string :=
  match c with
  | Changed _ _ _ => "change"
  | Added _ _ => "add"
  | Removed _ _ => "remove"
  end.

Definition path (c : change) : string :=
  match c with
  | Changed key _ _ => key
  | _ => ""
  end.

Definition first_str (c : change) : string :=
  match c with
  | Changed _ a _ => pyval_str a
  | Added key v | Removed key v =>
      "(" +:+ repr (PyStr key) +:+ ", " +:+ repr v +:+ ")"
  end.

(** The field [match[i][2][1]] exists for a [change] only; the other
    tuples are not formatted through it. *)
Definition second_str (c : change) : string :=
  match c with
  | Changed _ _ b => pyval_str b
  | _ => ""
  end.

Definition str (c : change) : string :=
  match c with
  | Changed key a b =>
      "('change', " +:+ repr (PyStr key) +:+ ", ("
      +:+ repr a +:+ ", " +:+ repr b +:+ "))"
  | Added key v =>
      "('add', '', [(" +:+ repr (PyStr key) +:+ ", " +:+ repr v +:+ ")])"
  | Removed key v =>
      "('remove', '', [(" +:+ repr (PyStr key) +:+ ", " +:+ repr v +:+ ")])"
  end.

Global Instance differ : DictDiffer config :=
  Build_DictDiffer config change diff kind path first_str second_str str.

End flat.

(** ** A worked scenario *)

(** Concrete collaborators and a concrete model, used to run the methods:
    doubles for the accountant, for float formatting and for Keras
    training, and a one-layer model with the constructor's defaults. *)
Module Scenario.

Definition num (z : Z) : pyfloat := Finite (inject_Z z).

(** A double for the accountant: it divides by [n] and by [batch_size],
    so it raises when either is zero; otherwise epsilon is 5. *)
Definition accountant (n batch_size : Z) (noise_multiplier : pyfloat)
    (epochs : Z) (delta : pyfloat) : exn + (pyfloat * pyfloat) :=
  if (n =? 0)%Z || (batch_size =? 0)%Z
  then inl (Exn ZeroDivisionError "division by zero")
  else inr (num 5, num 2).

(** A double for float formatting. *)
Definition show (x : pyfloat) : string :=
  match x with
  | Finite q =>
      if (Zpos (Qden q) =? 1)%Z then pretty (Qnum q) +:+ ".0"
      else pretty (Qnum q) +:+ "/" +:+ pretty (Zpos (Qden q))
  | PosInf => "inf"
  | NegInf => "-inf"
  | NaN => "nan"
  end.

Definition dense_config : flat.config :=
  [("name", PyStr "dense"); ("units", PyInt 2); ("use_bias", PyBool true)].

Definition kernel (a b c d : Z) : np.ndarray :=
  np.mk_ndarray [2; 2]%nat [num a; num b; num c; num d].

Definition bias (a b : Z) : np.ndarray :=
  np.mk_ndarray [2]%nat [num a; num b].

Definition dense (k : np.ndarray) (b : np.ndarray)
    : keras_layer flat.config :=
  mk_layer dense_config [k; b].

Definition flag : string := "_was_dp_gradients_called".

(** A DP optimizer as [compile] binds it: the flag is there and unset. *)
Definition dp_sgd : pyobj :=
  Obj "<DPKerasSGDOptimizer object>" {[ flag := PyBool false ]}.

(** A Keras optimizer without the DP machinery. *)
Definition plain_sgd : pyobj :=
  Obj "<keras.optimizer_v2.gradient_descent.SGD object>" ∅.

(** A DP optimizer of a class outside the allow-list, after training. *)
Definition vectorized_dp_sgd : pyobj :=
  Obj "<VectorizedDPKerasSGDOptimizer object>" {[ flag := PyBool true ]}.

(** A double for Keras training: the weights move, and a DP optimizer
    records that its gradients were computed. *)
Definition train (ls : model flat.config) (opt : pyobj)
    (epochs batch_size : Z)
    : exn + (unit * model flat.config * pyobj) :=
  let opt' :=
    match opt with
    | Obj r d =>
        match d !! flag with
        | Some _ => Obj r (<[flag := PyBool true]> d)
        | None => opt
        end
    | _ => opt
    end in
  inr (tt, [dense (kernel 5 6 7 8) (bias 1 1)], opt').

Definition untrained : Safe_KerasModel flat.config :=
  mk_self [dense (kernel 1 2 3 4) (bias 0 0)] dp_sgd
    (Finite (1 # 2)) (Finite (1 # 100000)) (num 10)
    250 25 20 "KerasModel" None None None None None None.

Definition quiet : world flat.config :=
  mk_world ∅ None (fun _ => None) 0 [].

(** The state after [fit(X, Y, validation_data, epochs=20,
    batch_size=25)] on 250 samples. *)
Definition fitted : state flat.config :=
  snd (fit accountant show unit train 0 250 20 25 false (untrained, quiet)).

Definition with_layers (ls : model flat.config) (s : state flat.config)
    : state flat.config :=
  (set_trained ls (optimizer (fst s)) (fst s), snd s).

Definition with_optimizer (opt : pyobj) (s : state flat.config)
    : state flat.config :=
  (set_trained (layers (fst s)) opt (fst s), snd s).

Definition with_batch_size (b : Z) (s : state flat.config)
    : state flat.config :=
  (set_fit_params (num_samples (fst s)) b (epochs (fst s)) (fst s), snd s).

(** The fitted model with the first kernel entry changed from 5 to 9. *)
Definition tampered : state flat.config :=
  with_layers [dense (kernel 9 6 7 8) (bias 1 1)] fitted.

(** A standard input on which every line is the same file name. *)
Definition answering (line : string) : world flat.config :=
  mk_world ∅ None (fun _ => Some line) 0 [].

(** The layers the fitted model holds, the same with one weight changed,
    and a model of two layers. *)
Definition one_layer : model flat.config :=
  [dense (kernel 5 6 7 8) (bias 1 1)].

Definition one_layer_changed : model flat.config :=
  [dense (kernel 9 6 7 8) (bias 1 1)].

Definition two_layers : model flat.config :=
  [dense (kernel 5 6 7 8) (bias 1 1); dense (kernel 1 2 3 4) (bias 0 0)].

(** A model whose training diverged: its only weight is [nan]. *)
Definition diverged : model flat.config :=
  [mk_layer dense_config [np.mk_ndarray [1]%nat [NaN]]].

(** An unfitted model whose optimizer attribute is the given string. *)
Definition named (identity : string) : state flat.config :=
  with_optimizer (StrObj identity) (untrained, quiet).

(** The message of the last check when it allows, for epsilon 5. *)
Definition allow_release : string :=
  "Recommendation: Allow release." +:+ nl
  +:+ "Epsilon vale of model 5.0 is below normal max recommended value."
  +:+ nl.

(** The dense layer with its units changed, and without its bias. *)
Definition dense_units3 : keras_layer flat.config :=
  mk_layer
    [("name", PyStr "dense"); ("units", PyInt 3); ("use_bias", PyBool true)]
    [kernel 5 6 7 8; bias 1 1].

Definition dense_no_bias : keras_layer flat.config :=
  mk_layer dense_config [kernel 5 6 7 8].

(** A disk on which writing a checkpoint fails. *)
Definition full_disk : world flat.config :=
  mk_world ∅ (Some (Exn OSError "No space left on device"))
    (fun _ => None) 0 [].

(** A user who answers "undefined" twice and then names a file. *)
Definition hesitant : world flat.config :=
  mk_world ∅ None
    (fun i => if (i <? 2)%nat then Some "undefined" else Some "model.tf")
    0 [].

(** An input of two lines, after which it ends. *)
Definition two_answers : world flat.config :=
  mk_world ∅ None
    (fun i => if (i <? 2)%nat then Some "model.tf" else None)
    0 [].

(** The reason [check_DP_used] gives when it confirms. *)
Definition used_reason : string :=
  " value of optimizer._was_dp_gradients_called is True, "
  +:+ "so DP variant of optimizer has been run".

End Scenario.


(** The message of [same_configs] states both layer counts. *)
Definition states_counts {config : Type} (m1 m2 : model config)
    (msg : string) : Prop :=
  contains (pretty (length m1)) msg = true
  /\ contains (pretty (length m2)) msg = true.

(** No weight of the model is [nan]. *)
Definition nan_free {config : Type} (m : model config) : Prop :=
  Forall (fun l => Forall (fun a => np.has_nan a = false) (get_weights l)) m.

(** [diff] finds nothing between the configuration of each layer and
    itself. *)
Definition diff_quiet {config : Type} `{DictDiffer config}
    (m : model config) : Prop :=
  Forall (fun l => diff (get_config l) (get_config l) = []) m.

(** The two models have the same number of weight groups layer by layer. *)
Definition same_group_counts {config : Type} (m1 m2 : model config) : Prop :=
  Forall2 (fun x y => length (get_weights x) = length (get_weights y)) m1 m2.

(** [check_optimizer_is_DP]: the key is looked for, its value is not
    read. *)
Definition check_optimizer_is_DP (opt : pyobj) : exn + (bool * string) :=
  match opt with
  | StrObj _ =>
      inl (Exn AttributeError "'str' object has no attribute '__dict__'")
  | Obj _ dict =>
      match dict !! "_was_dp_gradients_called" with
      | None =>
          inr (false,
               "optimizer does not contain key _was_dp_gradients_called"
               +:+ " so is not DP.")
      | Some _ =>
          inr (true,
               "optimizer does  contain key _was_dp_gradients_called"
               +:+ " so should be DP.")
      end
  end.

(** The configurations agree layer by layer for [diff]. *)
Definition configs_agree {config : Type} `{DictDiffer config}
    (m1 m2 : model config) : Prop :=
  Forall2 (fun x y => diff (get_config x) (get_config y) = []) m1 m2.

(** The world after the given texts were printed. *)
Definition printed {config : Type} (w : world config) (out : list string)
    : world config :=
  mk_world (files w) (write_error w) (stdin w) (stdin_pos w)
    (stdout w ++ out)%list.

(** A computation that changes nothing but standard output. *)
Definition prints_only {config : Type} {A : Type} (m : @M config A) : Prop :=
  forall (o : Safe_KerasModel config) (w : world config),
    exists (r : outcome A) (out : list string),
      m (o, w)
      = (r, (o, mk_world (files w) (write_error w) (stdin w) (stdin_pos w)
                  (stdout w ++ out)%list)).

(** The object [fit] leaves when it succeeds: its assignments, in order. *)
Definition fitted_object {config : Type} (n e b : Z) (eps : pyfloat)
    (ls : model config) (opt : pyobj) (used : bool) (reason : string)
    (o : Safe_KerasModel config) : Safe_KerasModel config :=
  set_saved_epsilon eps
    (set_saved used reason
       (set_model_save_file "tfsaves/fit_model.tf"
          (set_trained ls opt
             (set_current_epsilon eps (set_fit_params n b e o))))).

(** * Properties *)

(** ** Comparisons of floats and arrays *)

Lemma float_eqb_refl (x : pyfloat) : is_nan x = false -> float_eqb x x = true.
Proof.
  destruct x as [q| | |]; simpl; try reflexivity; try discriminate.
  intros _. apply Qeq_bool_iff. reflexivity.
Qed.

Lemma float_eqb_nan (x : pyfloat) : is_nan x = true -> float_eqb x x = false.
Proof. destruct x; simpl; try discriminate; reflexivity. Qed.

Lemma float_ltb_finite (a b : Q) :
  float_ltb (Finite a) (Finite b) = true <-> (a < b)%Q.
Proof.
  simpl. rewrite negb_true_iff. split.
  - intros Hle. apply Qnot_le_lt. intros Hba.
    apply Qle_bool_iff in Hba. congruence.
  - intros Hlt. destruct (Qle_bool b a) eqn:E; [|reflexivity].
    apply Qle_bool_iff in E. exfalso. exact (Qlt_not_le _ _ Hlt E).
Qed.

Lemma float_ltb_irrefl (x : pyfloat) : float_ltb x x = false.
Proof.
  destruct x as [q| | |]; simpl; try reflexivity.
  rewrite negb_false_iff. apply Qle_bool_iff. apply Qle_refl.
Qed.

Lemma all_equal_refl (xs : list pyfloat) :
  existsb is_nan xs = false -> np.all_equal xs xs = true.
Proof.
  induction xs as [|x xs IH]; simpl; [reflexivity|].
  intros Hn. apply orb_false_iff in Hn as [Hx Hxs].
  rewrite float_eqb_refl by exact Hx. simpl. auto.
Qed.

Lemma array_equal_refl (a : np.ndarray) :
  np.has_nan a = false -> np.array_equal a a = true.
Proof.
  intros Hn. unfold np.array_equal.
  destruct (decide (np.shape a = np.shape a)) as [_|Hne]; [|congruence].
  apply all_equal_refl. exact Hn.
Qed.

(** ** The comparators *)

Section ComparatorFacts.

Context {config : Type} `{DictDiffer config}.

Lemma weights_dims_self (layer : nat) (m1layer m2layer : list np.ndarray)
    (dims : list nat) :
  Forall (fun a => np.has_nan a = false) m2layer ->
  Forall (fun dim => (dim < length m2layer)%nat) dims ->
  weights_dims layer dims m1layer m2layer = None.
Proof.
  intros Hnan. induction dims as [|dim dims IH]; intros Hin; simpl.
  - reflexivity.
  - inversion Hin as [|? ? Hlt Hrest]; subst.
    destruct (lookup_lt_is_Some_2 m2layer dim Hlt) as [a Ha].
    rewrite (list_lookup_total_correct _ _ _ Ha).
    rewrite array_equal_refl; simpl.
    + apply IH. exact Hrest.
    + rewrite Forall_forall in Hnan. apply Hnan.
      eapply list_elem_of_lookup_2. exact Ha.
Qed.

Lemma seq_below (n : nat) :
  Forall (fun dim => (dim < n)%nat) (seq 0 n).
Proof.
  apply Forall_forall. intros x Hx. apply elem_of_seq in Hx. lia.
Qed.

(** From any index on, the loop of [same_weights] reads the weights of
    the second model only. *)
Lemma weights_from_second_only (l1 l2 : model config) :
  same_group_counts l1 l2 -> nan_free l2 ->
  forall layer, weights_from layer l1 l2 = (true, "weights match").
Proof.
  induction 1 as [|x y r1 r2 Hxy Hrest IH]; intros Hnan layer; simpl.
  - reflexivity.
  - inversion Hnan as [|? ? Hy Hr2]; subst.
    rewrite Hxy, Nat.eqb_refl. simpl.
    rewrite weights_dims_self.
    + apply IH. exact Hr2.
    + exact Hy.
    + rewrite <- Hxy. apply seq_below.
Qed.

(** Whatever the weights of the first model, [same_weights] reports a
    match as soon as the counts agree. *)
Lemma same_weights_second_only (m1 m2 : model config) :
  same_group_counts m1 m2 -> nan_free m2 ->
  same_weights m1 m2 = (true, "weights match").
Proof.
  intros Hc Hn. unfold same_weights.
  rewrite (Forall2_length _ _ _ Hc), Nat.eqb_refl. simpl.
  apply weights_from_second_only; assumption.
Qed.

Lemma same_group_counts_refl (m : model config) : same_group_counts m m.
Proof. induction m; constructor; auto. Qed.

Lemma configs_from_quiet (m : model config) :
  diff_quiet m ->
  forall layer, configs_from layer m m = (true, "configurations match").
Proof.
  induction 1 as [|x r Hx Hr IH]; intros layer; simpl.
  - reflexivity.
  - rewrite Hx. simpl. apply IH.
Qed.

(** C7, as amended. For every snapshot S without a [nan] weight, and on
    whose layer configurations [diff] finds nothing when a configuration
    is compared with itself, [same_configs S S] and [same_weights S S]
    both answer equal. *)
Theorem comparators_reflexive_without_nan (S : model config) :
  diff_quiet S -> nan_free S ->
  same_configs S S = (true, "configurations match")
  /\ same_weights S S = (true, "weights match").
Proof.
  intros Hq Hn. split.
  - unfold same_configs. rewrite Nat.eqb_refl. simpl.
    apply configs_from_quiet. exact Hq.
  - apply same_weights_second_only; [apply same_group_counts_refl|exact Hn].
Qed.

(** C8, as amended. For every pair of snapshots whose layer counts
    differ, [same_configs] answers unequal at once, with the fixed
    message "different numbers of layers". *)
Theorem same_configs_layer_count_mismatch (m1 m2 : model config) :
  length m1 <> length m2 ->
  same_configs m1 m2 = (false, "different numbers of layers").
Proof.
  intros Hne. unfold same_configs.
  apply Nat.eqb_neq in Hne. rewrite Hne. reflexivity.
Qed.

End ComparatorFacts.

(** ** The methods *)

Section MethodFacts.

Context {config : Type} `{DictDiffer config}.

Variable acct : Z -> Z -> pyfloat -> Z -> pyfloat -> exn + (pyfloat * pyfloat).
Variable fstr : pyfloat -> string.

Lemma bind_Return {A B} (m : @M config A) (k : A -> @M config B)
    (s s' : state config) (a : A) :
  m s = (Return a, s') -> bind m k s = k a s'.
Proof. unfold bind. intros ->. reflexivity. Qed.

Lemma bind_Raise {A B} (m : @M config A) (k : A -> @M config B)
    (s s' : state config) (e : exn) :
  m s = (Raise e, s') -> bind m k s = (Raise e, s').
Proof. unfold bind. intros ->. reflexivity. Qed.

Lemma bind_OutOfFuel {A B} (m : @M config A) (k : A -> @M config B)
    (s s' : state config) :
  m s = (OutOfFuel, s') -> bind m k s = (OutOfFuel, s').
Proof. unfold bind. intros ->. reflexivity. Qed.

(** C5. When the accountant returns the real [eps] and the threshold is
    the real [minEps], the flag of [dp_epsilon_met] is true if and only
    if [eps < minEps]; in particular it is false when they are equal. *)
Theorem dp_epsilon_met_ok_iff_below (n b e : Z) (s : state config)
    (eps minEps : Q) (order : pyfloat) :
  acct n b (noise_multiplier (fst s)) e (delta (fst s))
    = inr (Finite eps, order) ->
  min_epsilon (fst s) = Finite minEps ->
  exists ok : bool,
    dp_epsilon_met acct n b e s = (Return (ok, Finite eps), s)
    /\ (ok = true <-> (eps < minEps)%Q)
    /\ ((eps == minEps)%Q -> ok = false).
Proof.
  intros Hacct Hmin.
  unfold dp_epsilon_met, bind, gets, lift_result, ret. simpl.
  rewrite Hacct. simpl. rewrite Hmin.
  change (float_ltb (Finite eps) (Finite minEps))
    with (negb (Qle_bool minEps eps)).
  pose proof (float_ltb_finite eps minEps) as Hlt. simpl in Hlt.
  destruct (negb (Qle_bool minEps eps)) eqn:E.
  - exists true. split; [reflexivity|]. split.
    + split; [intros _|reflexivity]. apply Hlt. reflexivity.
    + intros Heq. assert (Hlt' : (eps < minEps)%Q) by (apply Hlt; reflexivity).
      rewrite Heq in Hlt'. exfalso. exact (Qlt_irrefl _ Hlt').
  - exists false. split; [reflexivity|]. split.
    + split; [discriminate|]. intros Hlt'.
      apply Hlt in Hlt'. discriminate.
    + reflexivity.
Qed.

Lemma save_prompt_named (fuel : nat) (s : state config) (name : string) :
  model_save_file (fst s) = Some name ->
  String.eqb name "undefined" = false ->
  save_prompt fuel s = (Return tt, s).
Proof.
  intros Hn Hu. destruct fuel; simpl; unfold bind, getattr;
    rewrite Hn, Hu; reflexivity.
Qed.

Lemma save_requested (fuel : nat) (o : Safe_KerasModel config)
    (w : world config) :
  write_error w = None ->
  save fuel "tfsaves/requested_model.tf" (o, w)
  = (Return tt,
     (set_model_save_file "tfsaves/requested_model.tf" o,
      write_file "tfsaves/requested_model.tf" (layers o) w)).
Proof.
  intros Hw. unfold save.
  unfold bind at 1. unfold modify at 1. cbn [fst snd].
  erewrite bind_Return;
    [|apply save_prompt_named with (name := "tfsaves/requested_model.tf");
      reflexivity].
  unfold bind at 1. unfold getattr at 1. cbn.
  rewrite Hw. reflexivity.
Qed.

(** Once both checkpoints load, [test_checkpoint_equality] answers
    [True]: [same] is never assigned again. *)
Lemma test_checkpoint_equality_loaded (fs : gmap string (model config))
    (v1 v2 : string) (m1 m2 : model config) :
  fs !! v1 = Some m1 -> fs !! v2 = Some m2 ->
  fst (test_checkpoint_equality fs v1 v2) = true.
Proof.
  intros H1 H2. unfold test_checkpoint_equality, load_model.
  rewrite H1, H2.
  destruct (same_configs m1 m2), (same_weights m1 m2). reflexivity.
Qed.

Lemma check_optimizer_allowed_truthy (opt : pyobj) (s : state config) :
  exists reason disclosive,
    check_optimizer_allowed opt s
    = (Return (PyStr reason, PyBool disclosive),
       (fst s,
        mk_world (files (snd s)) (write_error (snd s)) (stdin (snd s))
          (stdin_pos (snd s))
          (stdout (snd s) ++ [str_of (optimizer (fst s))])))
    /\ disclosive = negb (in_strings (optimizer (fst s)) allowed_optimizers)
    /\ truthy (PyStr reason) = true.
Proof.
  unfold check_optimizer_allowed, bind, gets, print, modify_world, ret.
  cbn [fst snd].
  destruct (in_strings (optimizer (fst s)) allowed_optimizers);
    eexists _, _; (split; [reflexivity|split; [reflexivity|]]).
  all: reflexivity.
Qed.

Lemma changed_since_fit_unchanged (s : state config) (reason : string)
    (eps : pyfloat) :
  saved_was_dpused (fst s) = Some true ->
  saved_reason (fst s) = Some reason ->
  saved_epsilon (fst s) = Some eps ->
  current_epsilon (fst s) = Some eps ->
  is_nan eps = false ->
  changed_since_fit true reason s = (Return false, s).
Proof.
  intros Hsu Hsr Hse Hce Hnan.
  unfold changed_since_fit, bind, getattr, ret.
  rewrite Hsu. cbn [Bool.eqb negb]. rewrite Hsr, String.eqb_refl.
  cbn [negb]. rewrite Hse, Hce, float_eqb_refl by exact Hnan.
  reflexivity.
Qed.

Lemma dp_epsilon_met_run (n b e : Z) (s : state config) :
  dp_epsilon_met acct n b e s
  = match acct n b (noise_multiplier (fst s)) e (delta (fst s)) with
    | inl err => (Raise err, s)
    | inr privacy =>
        (Return (float_ltb (fst privacy) (min_epsilon (fst s)), fst privacy),
         s)
    end.
Proof.
  unfold dp_epsilon_met, bind, gets, lift_result, ret, raise.
  cbn [fst snd].
  destruct (acct n b (noise_multiplier (fst s)) e (delta (fst s)))
    as [err|privacy]; [reflexivity|].
  destruct (float_ltb (fst privacy) (min_epsilon (fst s))); reflexivity.
Qed.

(** C6, as amended. Called with [batch_size = 0], [check_epsilon] prints
    the diagnostic "Division by zero setting batch_size =1" and then does
    exactly what the call with [batch_size = 1] does: the accountant is
    consulted with batch size 1, and when it returns there the call returns
    too, with the flag and the message of the call with [batch_size = 1];
    the diagnostic is on standard output, before the message. *)
Theorem check_epsilon_zero_batch_substitutes (n e : Z) (s : state config)
    (eps order : pyfloat) :
  acct n 1 (noise_multiplier (fst s)) e (delta (fst s)) = inr (eps, order) ->
  check_epsilon acct fstr n 0 e s
  = check_epsilon acct fstr n 1 e
      (fst s,
       mk_world (files (snd s)) (write_error (snd s)) (stdin (snd s))
         (stdin_pos (snd s))
         (stdout (snd s) ++ ["Division by zero setting batch_size =1"])%list)
  /\ exists msg : string,
       fst (check_epsilon acct fstr n 0 e s)
       = Return (float_ltb eps (min_epsilon (fst s)), msg)
       /\ stdout (snd (snd (check_epsilon acct fstr n 0 e s)))
          = (stdout (snd s)
             ++ ["Division by zero setting batch_size =1"; msg])%list
       /\ current_epsilon (fst (snd (check_epsilon acct fstr n 0 e s)))
          = Some eps.
Proof.
  intros Hacct. split; [reflexivity|].
  destruct s as [o w]. cbn [fst snd] in *.
  assert (Hrun : exists msg : string,
    check_epsilon acct fstr n 0 e (o, w)
    = (Return (float_ltb eps (min_epsilon o), msg),
       (set_current_epsilon eps o,
        mk_world (files w) (write_error w) (stdin w) (stdin_pos w)
          (stdout w
           ++ ["Division by zero setting batch_size =1"; msg])%list))).
  { unfold check_epsilon. cbn [Z.eqb].
    unfold bind at 1. unfold bind at 1. unfold print at 1, modify_world at 1.
    cbn [fst snd]. unfold ret at 1.
    unfold bind at 1. rewrite dp_epsilon_met_run. cbn [fst snd].
    rewrite Hacct. cbn [fst snd].
    unfold bind, modify, getattr, print, modify_world, ret.
    cbn [fst snd current_epsilon set_current_epsilon stdout files
         write_error stdin stdin_pos].
    eexists. rewrite <- app_assoc. reflexivity. }
  destruct Hrun as [msg Hrun]. exists msg. rewrite Hrun. cbn [fst snd].
  repeat split; reflexivity.
Qed.

(** When the first four checks pass, the verdict is that of the
    accountant called with the recorded parameters. *)
Lemma posthoc_check_budget (fuel : nat) (verbose : bool)
    (s : state config) (reason : string) (eps : pyfloat) :
  write_error (snd s) = None ->
  is_Some (files (snd s) !! "tfsaves/fit_model.tf") ->
  check_DP_used (optimizer (fst s)) = inr (true, reason) ->
  saved_was_dpused (fst s) = Some true ->
  saved_reason (fst s) = Some reason ->
  saved_epsilon (fst s) = Some eps ->
  current_epsilon (fst s) = Some eps ->
  is_nan eps = false ->
  fst (posthoc_check acct fstr fuel verbose s)
  = match acct (num_samples (fst s)) (batch_size (fst s))
            (noise_multiplier (fst s)) (epochs (fst s)) (delta (fst s)) with
    | inl err => Raise err
    | inr privacy =>
        if float_ltb (fst privacy) (min_epsilon (fst s))
        then
          Return
            (PyStr
               ("Recommendation: Allow release." +:+ nl
                +:+ "Epsilon vale of model " +:+ fstr (fst privacy) +:+ " "
                +:+ "is below normal max recommended value." +:+ nl),
             false)
        else
          Return
            (PyStr
               ("WARNING: epsilon " +:+ fstr (fst privacy) +:+ " "
                +:+ "is above normal max recommended value." +:+ nl
                +:+ "Discussion with researcher needed." +:+ nl),
             true)
    end.
Proof.
  intros Hw [snap Hfit] Hused Hsu Hsr Hse Hce Hnan.
  destruct s as [o w]; cbn [fst snd] in *.
  unfold posthoc_check.
  erewrite bind_Return; [|apply save_requested; exact Hw].
  unfold bind at 1. unfold gets_world at 1. cbn [fst snd].
  destruct (test_checkpoint_equality _ _ _) as [same msg] eqn:Etce.
  assert (Hsame : same = true).
  { change same with (fst (same, msg)). rewrite <- Etce.
    eapply test_checkpoint_equality_loaded.
    - unfold write_file; cbn [files].
      rewrite lookup_insert_ne by discriminate. exact Hfit.
    - unfold write_file; cbn [files]. apply lookup_insert_eq. }
  subst same. cbn [negb].
  unfold bind at 1. unfold gets at 1. cbn [fst snd].
  match goal with
  | |- context [bind (check_optimizer_allowed ?a) _ ?st] =>
      destruct (check_optimizer_allowed_truthy a st) as (r & d & Eq & _ & Ht)
  end.
  erewrite bind_Return; [|exact Eq].
  cbv beta iota zeta. rewrite Ht. cbn [negb fst snd].
  unfold bind at 1. unfold gets at 1.
  cbn [fst snd optimizer set_model_save_file].
  rewrite Hused. unfold bind at 1. unfold lift_result at 1, ret at 1.
  cbv beta iota zeta. cbn [negb].
  erewrite bind_Return;
    [|apply changed_since_fit_unchanged with (eps := eps); assumption].
  do 3 (unfold bind at 1; unfold gets at 1; cbn [fst snd]).
  cbn [num_samples batch_size epochs set_model_save_file].
  unfold bind at 1. rewrite dp_epsilon_met_run.
  cbn [fst snd noise_multiplier delta min_epsilon set_model_save_file].
  destruct (acct (num_samples o) (batch_size o) (noise_multiplier o)
              (epochs o) (delta o)) as [err|privacy].
  - reflexivity.
  - destruct (float_ltb (fst privacy) (min_epsilon o)); cbn [negb].
    + unfold bind, print, modify_world, ret. cbn [fst snd]. reflexivity.
    + unfold bind, print, modify_world, ret. cbn [fst snd]. reflexivity.
Qed.

(** C9. [posthoc_check] hands the recorded [batch_size] to the accountant
    as it is: when the first four checks pass and the recorded
    [batch_size] is 0, the accountant is called with batch size 0; if it
    raises there, [posthoc_check] raises the same exception, and if it
    returns, the verdict is taken from what it returned. No substitution
    of 1 takes place on this path. *)
Theorem posthoc_check_zero_batch_unguarded (fuel : nat) (verbose : bool)
    (s : state config) (reason : string) (eps : pyfloat) :
  write_error (snd s) = None ->
  is_Some (files (snd s) !! "tfsaves/fit_model.tf") ->
  check_DP_used (optimizer (fst s)) = inr (true, reason) ->
  saved_was_dpused (fst s) = Some true ->
  saved_reason (fst s) = Some reason ->
  saved_epsilon (fst s) = Some eps ->
  current_epsilon (fst s) = Some eps ->
  is_nan eps = false ->
  batch_size (fst s) = 0%Z ->
  match acct (num_samples (fst s)) 0%Z (noise_multiplier (fst s))
            (epochs (fst s)) (delta (fst s)) with
  | inl err => fst (posthoc_check acct fstr fuel verbose s) = Raise err
  | inr privacy =>
      exists msg,
        fst (posthoc_check acct fstr fuel verbose s)
        = Return (PyStr msg,
                  negb (float_ltb (fst privacy) (min_epsilon (fst s))))
  end.
Proof.
  intros Hw Hfit Hused Hsu Hsr Hse Hce Hnan Hb.
  rewrite (posthoc_check_budget fuel verbose s reason eps) by assumption.
  rewrite Hb.
  destruct (acct (num_samples (fst s)) 0%Z (noise_multiplier (fst s))
              (epochs (fst s)) (delta (fst s))) as [err|privacy].
  - reflexivity.
  - destruct (float_ltb (fst privacy) (min_epsilon (fst s)));
      eexists; reflexivity.
Qed.

Lemma input_line (prompt line : string) (o : Safe_KerasModel config)
    (w : world config) :
  stdin w (stdin_pos w) = Some line ->
  input prompt (o, w)
  = (Return line,
     (o, mk_world (files w) (write_error w) (stdin w) (S (stdin_pos w))
           (stdout w ++ [prompt]))).
Proof.
  intros Hline. unfold input, bind, print, modify_world, gets_world, ret.
  simpl. rewrite Hline. reflexivity.
Qed.

Lemma input_eof (prompt : string) (o : Safe_KerasModel config)
    (w : world config) :
  stdin w (stdin_pos w) = None ->
  fst (input prompt (o, w)) = Raise (Exn EOFError "EOF when reading a line").
Proof.
  intros Hline. unfold input, bind, print, modify_world, gets_world, raise.
  simpl. rewrite Hline. reflexivity.
Qed.

(** A turn of the prompt loop of [load] assigns the line read to
    [model_save_file] and leaves [model_load_file] as it was, so a loop
    entered with "undefined" takes every turn for which a line is there. *)
Lemma load_prompt_undefined (fuel : nat) :
  forall (o : Safe_KerasModel config) (w : world config),
    model_load_file o = Some "undefined" ->
    (forall i, (i < fuel)%nat -> is_Some (stdin w (stdin_pos w + i)%nat)) ->
    exists o' w',
      load_prompt fuel (o, w) = (OutOfFuel, (o', w'))
      /\ model_load_file o' = Some "undefined"
      /\ model_save_file o'
         = match fuel with
           | O => model_save_file o
           | S k => stdin w (stdin_pos w + k)%nat
           end
      /\ stdin w' = stdin w
      /\ stdin_pos w' = (stdin_pos w + fuel)%nat.
Proof.
  induction fuel as [|fuel IH]; intros o w Hload Hin.
  - exists o, w. cbn [load_prompt]. unfold bind, getattr. cbn [fst snd].
    rewrite Hload. cbn. repeat split; lia.
  - destruct (Hin 0%nat) as [line Hline]; [lia|].
    rewrite Nat.add_0_r in Hline.
    cbn [load_prompt]. unfold bind at 1. unfold getattr at 1.
    cbn [fst snd]. rewrite Hload. cbn [String.eqb Ascii.eqb Bool.eqb].
    erewrite bind_Return; [|apply input_line; exact Hline].
    unfold bind at 1. unfold modify at 1. cbn [fst snd].
    match goal with
    | |- context [load_prompt fuel (?o1, ?w1)] =>
        destruct (IH o1 w1) as (o' & w' & Hrun & Hl & Hsave & Hs & Hp)
    end.
    + exact Hload.
    + intros i Hi. cbn [stdin stdin_pos].
      replace (S (stdin_pos w) + i)%nat with (stdin_pos w + S i)%nat by lia.
      apply Hin. lia.
    + exists o', w'. rewrite Hrun. cbn [stdin stdin_pos] in Hs, Hp, Hsave.
      split; [reflexivity|]. split; [exact Hl|].
      split; [|split; [exact Hs | lia]].
      rewrite Hsave. destruct fuel as [|k].
      * cbn [model_save_file set_model_save_file].
        rewrite Nat.add_0_r. symmetry. exact Hline.
      * f_equal. lia.
Qed.

Lemma input_end (prompt : string) (o : Safe_KerasModel config)
    (w : world config) :
  stdin w (stdin_pos w) = None ->
  input prompt (o, w)
  = (Raise (Exn EOFError "EOF when reading a line"),
     (o, mk_world (files w) (write_error w) (stdin w) (stdin_pos w)
           (stdout w ++ [prompt]))).
Proof.
  intros Hline. unfold input, bind, print, modify_world, gets_world, raise.
  simpl. rewrite Hline. reflexivity.
Qed.

(** The loop stops where the input does: after [k] lines, the next call
    of [input] raises [EOFError]. *)
Lemma load_prompt_end_of_input (k : nat) :
  forall (fuel : nat) (o : Safe_KerasModel config) (w : world config),
    model_load_file o = Some "undefined" ->
    (forall i, (i < k)%nat -> is_Some (stdin w (stdin_pos w + i)%nat)) ->
    stdin w (stdin_pos w + k)%nat = None ->
    (k < fuel)%nat ->
    exists o' w',
      load_prompt fuel (o, w)
      = (Raise (Exn EOFError "EOF when reading a line"), (o', w'))
      /\ model_load_file o' = Some "undefined"
      /\ stdin_pos w' = (stdin_pos w + k)%nat.
Proof.
  induction k as [|k IH]; intros fuel o w Hload Hin Hend Hk;
    (destruct fuel as [|fuel]; [lia|]).
  - rewrite Nat.add_0_r in Hend.
    cbn [load_prompt]. unfold bind at 1. unfold getattr at 1.
    cbn [fst snd]. rewrite Hload. cbn [String.eqb Ascii.eqb Bool.eqb].
    erewrite bind_Raise; [|apply input_end; exact Hend].
    eexists _, _. split; [reflexivity|]. split; [exact Hload|].
    cbn [stdin_pos]. lia.
  - destruct (Hin 0%nat) as [line Hline]; [lia|].
    rewrite Nat.add_0_r in Hline.
    cbn [load_prompt]. unfold bind at 1. unfold getattr at 1.
    cbn [fst snd]. rewrite Hload. cbn [String.eqb Ascii.eqb Bool.eqb].
    erewrite bind_Return; [|apply input_line; exact Hline].
    unfold bind at 1. unfold modify at 1. cbn [fst snd].
    match goal with
    | |- context [load_prompt fuel (?o1, ?w1)] =>
        destruct (IH fuel o1 w1) as (o' & w' & Hrun & Hl & Hp)
    end.
    + exact Hload.
    + intros i Hi. cbn [stdin stdin_pos].
      replace (S (stdin_pos w) + i)%nat with (stdin_pos w + S i)%nat by lia.
      apply Hin. lia.
    + cbn [stdin stdin_pos].
      replace (S (stdin_pos w) + k)%nat with (stdin_pos w + S k)%nat by lia.
      exact Hend.
    + lia.
    + exists o', w'. rewrite Hrun. cbn [stdin_pos] in Hp.
      split; [reflexivity|]. split; [exact Hl | lia].
Qed.

(** Even when the input ends, the loop never falls through. *)
Lemma load_prompt_never_returns (fuel : nat) :
  forall (o : Safe_KerasModel config) (w : world config),
    model_load_file o = Some "undefined" ->
    fst (load_prompt fuel (o, w)) <> Return tt.
Proof.
  induction fuel as [|fuel IH]; intros o w Hload.
  - cbn [load_prompt]. unfold bind, getattr. cbn [fst snd].
    rewrite Hload. cbn. discriminate.
  - cbn [load_prompt]. unfold bind at 1. unfold getattr at 1.
    cbn [fst snd]. rewrite Hload. cbn [String.eqb Ascii.eqb Bool.eqb].
    destruct (stdin w (stdin_pos w)) as [line|] eqn:Hline.
    + erewrite bind_Return; [|apply input_line; exact Hline].
      unfold bind at 1. unfold modify at 1. cbn [fst snd].
      apply IH. exact Hload.
    + pose proof (input_eof
        "Please input a name with extension for the model to load."
        o w Hline) as Heof.
      unfold bind.
      destruct (input _ (o, w)) as [[a|e|] s']; cbn [fst] in *;
        discriminate.
Qed.

(** C10. [load] called with the name "undefined" does not terminate
    while lines keep coming on standard input: whatever number of turns
    of its prompt loop is allowed, if that many lines are there to read
    the loop uses all the turns, one line read per turn. Each line read is
    assigned to [model_save_file], which ends up holding the last one,
    and [model_load_file], which the loop tests, is still "undefined". *)
Theorem load_undefined_does_not_terminate (fuel : nat) (s : state config) :
  (forall i, (i < fuel)%nat ->
     is_Some (stdin (snd s) (stdin_pos (snd s) + i)%nat)) ->
  fst (load fuel "undefined" s) = OutOfFuel
  /\ model_load_file (fst (snd (load fuel "undefined" s)))
     = Some "undefined"
  /\ model_save_file (fst (snd (load fuel "undefined" s)))
     = match fuel with
       | O => model_save_file (fst s)
       | S k => stdin (snd s) (stdin_pos (snd s) + k)%nat
       end
  /\ stdin_pos (snd (snd (load fuel "undefined" s)))
     = (stdin_pos (snd s) + fuel)%nat.
Proof.
  intros Hin. destruct s as [o w]; cbn [fst snd] in *.
  destruct (load_prompt_undefined fuel (set_model_load_file "undefined" o) w)
    as (o' & w' & Hrun & Hl & Hsave & _ & Hp); [reflexivity | exact Hin |].
  assert (Hload : load fuel "undefined" (o, w) = (OutOfFuel, (o', w'))).
  { unfold load. unfold bind at 1. unfold modify at 1. cbn [fst snd].
    erewrite bind_OutOfFuel; [reflexivity | exact Hrun]. }
  rewrite Hload. cbn [fst snd]. repeat split; assumption.
Qed.

(** When the input ends after [k] lines, [load] called with "undefined"
    stops there with the [EOFError] of [input], [model_load_file] still
    being "undefined". *)
Lemma load_undefined_end_of_input (fuel k : nat) (s : state config) :
  (k < fuel)%nat ->
  (forall i, (i < k)%nat ->
     is_Some (stdin (snd s) (stdin_pos (snd s) + i)%nat)) ->
  stdin (snd s) (stdin_pos (snd s) + k)%nat = None ->
  fst (load fuel "undefined" s)
  = Raise (Exn EOFError "EOF when reading a line")
  /\ model_load_file (fst (snd (load fuel "undefined" s)))
     = Some "undefined"
  /\ stdin_pos (snd (snd (load fuel "undefined" s)))
     = (stdin_pos (snd s) + k)%nat.
Proof.
  intros Hk Hin Hend. destruct s as [o w]; cbn [fst snd] in *.
  destruct (load_prompt_end_of_input k fuel
              (set_model_load_file "undefined" o) w)
    as (o' & w' & Hrun & Hl & Hp); [reflexivity | exact Hin | exact Hend
                                   | exact Hk |].
  assert (Hload : load fuel "undefined" (o, w)
                  = (Raise (Exn EOFError "EOF when reading a line"),
                     (o', w'))).
  { unfold load. unfold bind at 1. unfold modify at 1. cbn [fst snd].
    erewrite bind_Raise; [reflexivity | exact Hrun]. }
  rewrite Hload. cbn [fst snd]. repeat split; assumption.
Qed.

Lemma load_undefined_never_returns (fuel : nat) (s : state config)
    (m : model config) :
  fst (load fuel "undefined" s) <> Return m.
Proof.
  destruct s as [o w].
  unfold load. unfold bind at 1. unfold modify at 1. cbn [fst snd].
  pose proof (load_prompt_never_returns fuel
                (set_model_load_file "undefined" o) w eq_refl) as Hnr.
  unfold bind at 1.
  destruct (load_prompt fuel (set_model_load_file "undefined" o, w))
    as [[[]|e|] s']; cbn [fst] in *; congruence.
Qed.

End MethodFacts.

(** ** More on the comparators *)

Section ComparatorMore.

Context {config : Type} `{DictDiffer config}.

Lemma configs_from_true_iff (l1 l2 : model config) :
  length l1 = length l2 ->
  forall layer,
    fst (configs_from layer l1 l2) = true <-> configs_agree l1 l2.
Proof.
  revert l2. induction l1 as [|x r1 IH]; intros [|y r2] Hlen layer;
    simpl in Hlen; try discriminate.
  - simpl. split; [constructor|reflexivity].
  - simpl. destruct (diff (get_config x) (get_config y)) as [|c cs] eqn:Ed.
    + simpl. rewrite IH by lia. split.
      * intros Hr. constructor; assumption.
      * intros Ha. inversion Ha; subst. assumption.
    + simpl. split; [discriminate|].
      intros Ha. inversion Ha; subst. congruence.
Qed.

(** X1. [same_configs] answers equal exactly when the two models have the
    same number of layers and [diff] finds nothing between the
    configurations of each pair of layers. *)
Theorem same_configs_true_iff (m1 m2 : model config) :
  fst (same_configs m1 m2) = true
  <-> length m1 = length m2 /\ configs_agree m1 m2.
Proof.
  unfold same_configs.
  destruct (length m1 =? length m2)%nat eqn:E; simpl.
  - apply Nat.eqb_eq in E. rewrite configs_from_true_iff by exact E.
    tauto.
  - apply Nat.eqb_neq in E. split; [discriminate|]. intros [Hl _]. lia.
Qed.

Lemma configs_from_first_difference (pre1 pre2 : model config) :
  configs_agree pre1 pre2 ->
  forall (x1 x2 : keras_layer config) (post1 post2 : model config) layer,
    diff (get_config x1) (get_config x2) <> [] ->
    configs_from layer (pre1 ++ x1 :: post1)%list (pre2 ++ x2 :: post2)%list
    = (false,
       "Layer " +:+ pretty (layer + length pre1)%nat +:+ " configs differ in "
       +:+ pretty (length (diff (get_config x1) (get_config x2)))
       +:+ " places:" +:+ nl
       +:+ changes_msg (diff (get_config x1) (get_config x2))).
Proof.
  induction 1 as [|a b r1 r2 Hab Hrest IH]; intros x1 x2 post1 post2 layer Hd.
  - simpl. destruct (diff (get_config x1) (get_config x2)) as [|c cs];
      [congruence|]. simpl. rewrite Nat.add_0_r. reflexivity.
  - simpl. rewrite Hab. simpl. rewrite IH by exact Hd.
    replace (S layer + length r1)%nat with (layer + S (length r1))%nat by lia.
    reflexivity.
Qed.

(** X2. [same_configs] reports the first layer whose configurations differ:
    its index, the number of entries of the diff, and the text of each
    entry. *)
Theorem same_configs_first_difference (pre1 pre2 post1 post2 : model config)
    (x1 x2 : keras_layer config) :
  configs_agree pre1 pre2 ->
  length post1 = length post2 ->
  diff (get_config x1) (get_config x2) <> [] ->
  same_configs (pre1 ++ x1 :: post1)%list (pre2 ++ x2 :: post2)%list
  = (false,
     "Layer " +:+ pretty (length pre1) +:+ " configs differ in "
     +:+ pretty (length (diff (get_config x1) (get_config x2)))
     +:+ " places:" +:+ nl
     +:+ changes_msg (diff (get_config x1) (get_config x2))).
Proof.
  intros Hpre Hpost Hd. unfold same_configs.
  assert (Hl : (length (pre1 ++ x1 :: post1) =? length (pre2 ++ x2 :: post2))%nat
               = true).
  { apply Nat.eqb_eq. rewrite !length_app. simpl.
    rewrite (Forall2_length _ _ _ Hpre), Hpost. reflexivity. }
  rewrite Hl. simpl.
  rewrite configs_from_first_difference by assumption. reflexivity.
Qed.

Lemma all_equal_self_nan (xs : list pyfloat) :
  np.all_equal xs xs = negb (existsb is_nan xs).
Proof.
  induction xs as [|x xs IH]; simpl; [reflexivity|].
  rewrite IH. destruct (is_nan x) eqn:E.
  - rewrite float_eqb_nan by exact E. reflexivity.
  - rewrite float_eqb_refl by exact E. reflexivity.
Qed.

Lemma array_equal_self (a : np.ndarray) :
  np.array_equal a a = negb (np.has_nan a).
Proof.
  unfold np.array_equal, np.has_nan.
  destruct (decide (np.shape a = np.shape a)) as [_|Hne]; [|congruence].
  apply all_equal_self_nan.
Qed.

Lemma weights_dims_none_iff (layer : nat) (m1layer m2layer : list np.ndarray) :
  weights_dims layer (seq 0 (length m2layer)) m1layer m2layer = None
  <-> Forall (fun a => np.has_nan a = false) m2layer.
Proof.
  assert (Hgen : forall dims,
    weights_dims layer dims m1layer m2layer = None
    <-> Forall (fun dim => np.has_nan (m2layer !!! dim) = false) dims).
  { induction dims as [|dim dims IH]; simpl.
    - split; [constructor|reflexivity].
    - rewrite array_equal_self, negb_involutive.
      destruct (np.has_nan (m2layer !!! dim)) eqn:E.
      + split; [discriminate|]. intros Hf. inversion Hf; subst. congruence.
      + rewrite IH. split.
        * intros Hf. constructor; assumption.
        * intros Hf. inversion Hf; subst. assumption. }
  rewrite Hgen. rewrite !Forall_forall. split.
  - intros Hd a Ha. apply list_elem_of_lookup in Ha as [i Hi].
    specialize (Hd i). rewrite (list_lookup_total_correct _ _ _ Hi) in Hd.
    apply Hd. apply elem_of_seq. apply lookup_lt_Some in Hi. lia.
  - intros Hm dim Hdim. apply elem_of_seq in Hdim.
    destruct (lookup_lt_is_Some_2 m2layer dim) as [a Ha]; [lia|].
    rewrite (list_lookup_total_correct _ _ _ Ha).
    apply Hm. eapply list_elem_of_lookup_2. exact Ha.
Qed.

Lemma weights_from_true_iff (l1 l2 : model config) :
  length l1 = length l2 ->
  forall layer,
    fst (weights_from layer l1 l2) = true
    <-> same_group_counts l1 l2 /\ nan_free l2.
Proof.
  revert l2. induction l1 as [|x r1 IH]; intros [|y r2] Hlen layer;
    simpl in Hlen; try discriminate.
  - simpl. split; [intros _; split; constructor|reflexivity].
  - simpl.
    destruct (length (get_weights x) =? length (get_weights y))%nat eqn:E;
      simpl.
    + apply Nat.eqb_eq in E. rewrite E.
      destruct (weights_dims layer (seq 0 (length (get_weights y)))
                  (get_weights x) (get_weights y)) as [r|] eqn:Ed.
      * assert (Hfalse : fst r = false).
        { clear -Ed. revert Ed.
          generalize (seq 0 (length (get_weights y))).
          induction l as [|d ds IHd]; simpl; [discriminate|].
          destruct (negb _); [intros [= <-]; reflexivity|exact IHd]. }
        rewrite Hfalse. split; [discriminate|].
        intros [_ Hn]. inversion Hn as [|? ? Hy _]; subst.
        apply (proj2 (weights_dims_none_iff layer
                        (get_weights x) (get_weights y))) in Hy.
        congruence.
      * apply weights_dims_none_iff in Ed.
        rewrite IH by lia. split.
        -- intros [Hc Hn]. split; constructor; assumption.
        -- intros [Hc Hn]. inversion Hc; inversion Hn; subst. tauto.
    + apply Nat.eqb_neq in E. split; [discriminate|].
      intros [Hc _]. inversion Hc; subst. congruence.
Qed.

(** X3. [same_weights] answers equal exactly when the layer counts agree,
    each layer has as many weight groups in both models, and no weight of
    the second model is [nan]; the weights of the first model play no
    part. *)
Theorem same_weights_true_iff (m1 m2 : model config) :
  fst (same_weights m1 m2) = true
  <-> length m1 = length m2 /\ same_group_counts m1 m2 /\ nan_free m2.
Proof.
  unfold same_weights.
  destruct (length m1 =? length m2)%nat eqn:E; simpl.
  - apply Nat.eqb_eq in E. rewrite weights_from_true_iff by exact E. tauto.
  - apply Nat.eqb_neq in E. split; [discriminate|]. intros [Hl _]. lia.
Qed.

Lemma weights_from_group_count (pre1 pre2 : model config) :
  same_group_counts pre1 pre2 -> nan_free pre2 ->
  forall (x1 x2 : keras_layer config) (post1 post2 : model config) layer,
    length (get_weights x1) <> length (get_weights x2) ->
    weights_from layer (pre1 ++ x1 :: post1)%list (pre2 ++ x2 :: post2)%list
    = (false,
       "layer " +:+ pretty (layer + length pre1)%nat +:+ " not the same size.").
Proof.
  induction 1 as [|a b r1 r2 Hab Hrest IH];
    intros Hn x1 x2 post1 post2 layer Hd.
  - simpl. apply Nat.eqb_neq in Hd. rewrite Hd. simpl.
    rewrite Nat.add_0_r. reflexivity.
  - inversion Hn as [|? ? Hb Hr2]; subst.
    simpl. rewrite Hab, Nat.eqb_refl. simpl.
    rewrite (proj2 (weights_dims_none_iff layer (get_weights a) (get_weights b)) Hb).
    rewrite IH by assumption.
    replace (S layer + length r1)%nat with (layer + S (length r1))%nat by lia.
    reflexivity.
Qed.

(** X4. When a layer has a different number of weight groups in the two
    models, and the layers before it pass, [same_weights] answers unequal
    with the message "layer i not the same size." for that index. *)
Theorem same_weights_group_count_mismatch
    (pre1 pre2 post1 post2 : model config) (x1 x2 : keras_layer config) :
  same_group_counts pre1 pre2 -> nan_free pre2 ->
  length post1 = length post2 ->
  length (get_weights x1) <> length (get_weights x2) ->
  same_weights (pre1 ++ x1 :: post1)%list (pre2 ++ x2 :: post2)%list
  = (false, "layer " +:+ pretty (length pre1) +:+ " not the same size.").
Proof.
  intros Hpre Hn Hpost Hd. unfold same_weights.
  assert (Hl : (length (pre1 ++ x1 :: post1) =? length (pre2 ++ x2 :: post2))%nat
               = true).
  { apply Nat.eqb_eq. rewrite !length_app. simpl.
    rewrite (Forall2_length _ _ _ Hpre), Hpost. reflexivity. }
  rewrite Hl. simpl.
  rewrite weights_from_group_count by assumption. reflexivity.
Qed.

Lemma test_checkpoint_equality_missing
    (fs : gmap string (model config)) (v1 v2 : string) :
  fs !! v1 = None ->
  fst (test_checkpoint_equality fs v1 v2) = false.
Proof.
  intros E. unfold test_checkpoint_equality, load_model.
  rewrite E. reflexivity.
Qed.

(** X5. [test_checkpoint_equality] answers [False] exactly when one of the
    two checkpoints cannot be loaded. *)
Theorem test_checkpoint_equality_false_iff
    (fs : gmap string (model config)) (v1 v2 : string) :
  fst (test_checkpoint_equality fs v1 v2) = false
  <-> fs !! v1 = None \/ fs !! v2 = None.
Proof.
  unfold test_checkpoint_equality, load_model.
  destruct (fs !! v1) as [m1|] eqn:E1; simpl.
  - destruct (fs !! v2) as [m2|] eqn:E2; simpl.
    + destruct (same_configs m1 m2), (same_weights m1 m2). simpl.
      split; [discriminate|]. intros [?|?]; discriminate.
    + split; [right; reflexivity|reflexivity].
  - split; [left; reflexivity|reflexivity].
Qed.

End ComparatorMore.

(** ** More on the optimizer checks and the budget *)

Lemma check_DP_used_confirmed_has_flag (opt : pyobj) (reason : string) :
  check_DP_used opt = inr (true, reason) ->
  exists repr dict flag,
    opt = Obj repr dict /\ dict !! "_was_dp_gradients_called" = Some flag.
Proof.
  destruct opt as [s|repr dict]; simpl; [discriminate|].
  destruct (dict !! "_was_dp_gradients_called") as [flag|] eqn:E;
    [|discriminate].
  intros _. exists repr, dict, flag. auto.
Qed.

(** X6. [check_DP_used] confirms exactly for an object whose [__dict__]
    holds [_was_dp_gradients_called] with a value equal to [True], and then
    with one fixed reason. *)
Theorem check_DP_used_confirms_iff (opt : pyobj) (reason : string) :
  check_DP_used opt = inr (true, reason)
  <-> exists repr dict flag,
        opt = Obj repr dict
        /\ dict !! "_was_dp_gradients_called" = Some flag
        /\ (flag = PyBool true \/ flag = PyInt 1)
        /\ reason
           = " value of optimizer._was_dp_gradients_called is True, "
             +:+ "so DP variant of optimizer has been run".
Proof.
  split.
  - destruct opt as [s|repr dict]; simpl; [discriminate|].
    destruct (dict !! "_was_dp_gradients_called") as [flag|] eqn:E;
      [|discriminate].
    destruct flag as [|[]|z|t]; simpl; try discriminate.
    + intros [= <-]. exists repr, dict, (PyBool true). auto.
    + destruct (z =? 0)%Z eqn:E0; [discriminate|].
      destruct (z =? 1)%Z eqn:E1; [|discriminate].
      apply Z.eqb_eq in E1. subst z.
      intros [= <-]. exists repr, dict, (PyInt 1). auto.
  - intros (repr & dict & flag & -> & Hf & [->| ->] & ->); simpl;
      rewrite Hf; reflexivity.
Qed.

(** X7. Whatever [check_DP_used] confirms, [check_optimizer_is_DP]
    confirms too. *)
Theorem check_DP_used_implies_is_DP (opt : pyobj) (reason : string) :
  check_DP_used opt = inr (true, reason) ->
  check_optimizer_is_DP opt
  = inr (true,
         "optimizer does  contain key _was_dp_gradients_called"
         +:+ " so should be DP.").
Proof.
  intros Hu. apply check_DP_used_confirmed_has_flag in Hu
    as (repr & dict & flag & -> & Hf).
  simpl. rewrite Hf. reflexivity.
Qed.

Section MethodMore.

Context {config : Type} `{DictDiffer config}.

Variable acct : Z -> Z -> pyfloat -> Z -> pyfloat -> exn + (pyfloat * pyfloat).
Variable fstr : pyfloat -> string.

(** X8. [check_optimizer_allowed] reports [disclosive = False] exactly when
    [self.optimizer] is one of the three strings of the allow-list,
    whatever optimizer is passed to it. *)
Theorem check_optimizer_allowed_only_strings (opt : pyobj) (s : state config)
    (reason : string) :
  fst (check_optimizer_allowed opt s) = Return (PyStr reason, PyBool false)
  <-> exists name,
        optimizer (fst s) = StrObj name
        /\ In name allowed_optimizers
        /\ reason = "optimizer " +:+ name +:+ " allowed".
Proof.
  unfold check_optimizer_allowed, bind, gets, print, modify_world, ret.
  cbn [fst snd].
  destruct (optimizer (fst s)) as [name|repr dict] eqn:Eo; cbn [in_strings].
  - destruct (existsb (String.eqb name) allowed_optimizers) eqn:Ex;
      cbn [fst str_of].
    + split.
      * intros [= <-]. exists name. split; [reflexivity|]. split; [|reflexivity].
        apply existsb_exists in Ex as (x & Hin & Hx).
        apply String.eqb_eq in Hx. subst x. exact Hin.
      * intros (n & [= <-] & _ & ->). reflexivity.
    + split; [discriminate|].
      intros (n & [= <-] & Hin & _).
      assert (existsb (String.eqb name) allowed_optimizers = true).
      { apply existsb_exists. exists name. split; [exact Hin|].
        apply String.eqb_refl. }
      congruence.
  - cbn [fst]. split; [discriminate|]. intros (n & Hn & _). discriminate.
Qed.

(** X9. [dp_epsilon_met] never reports the budget as met when the epsilon
    is [nan] or plus infinity, or when the threshold is [nan] or minus
    infinity. *)
Theorem dp_epsilon_met_not_on_nan (n b e : Z) (s : state config)
    (eps : pyfloat) :
  fst (dp_epsilon_met acct n b e s) = Return (true, eps) ->
  is_nan eps = false /\ eps <> PosInf
  /\ is_nan (min_epsilon (fst s)) = false /\ min_epsilon (fst s) <> NegInf.
Proof.
  rewrite dp_epsilon_met_run.
  destruct (acct n b (noise_multiplier (fst s)) e (delta (fst s)))
    as [err|[x order]]; cbn [fst snd]; [discriminate|].
  intros [= Hlt <-].
  destruct x, (min_epsilon (fst s)); simpl in Hlt; try discriminate;
    repeat split; try reflexivity; discriminate.
Qed.

(** X10. When the accountant raises, [check_epsilon] raises the same
    exception and the object is unchanged ([current_epsilon] included);
    for a batch size other than 0 nothing has been printed either. *)
Theorem check_epsilon_propagates (n b e : Z) (s : state config) (err : exn) :
  acct n (if (b =? 0)%Z then 1%Z else b) (noise_multiplier (fst s)) e
    (delta (fst s)) = inl err ->
  fst (check_epsilon acct fstr n b e s) = Raise err
  /\ fst (snd (check_epsilon acct fstr n b e s)) = fst s
  /\ (b <> 0%Z -> snd (check_epsilon acct fstr n b e s) = s).
Proof.
  intros Hacct. destruct s as [o w]. cbn [fst snd] in *.
  assert (Hrun : exists w',
    check_epsilon acct fstr n b e (o, w) = (Raise err, (o, w'))
    /\ (b <> 0%Z -> w' = w)).
  { unfold check_epsilon. destruct (b =? 0)%Z eqn:Eb.
    - unfold bind at 1. unfold bind at 1. unfold print at 1, modify_world at 1.
      cbn [fst snd]. unfold ret at 1.
      unfold bind at 1. rewrite dp_epsilon_met_run. cbn [fst snd].
      rewrite Hacct. eexists. split; [reflexivity|].
      apply Z.eqb_eq in Eb. intros Hne. contradiction.
    - unfold bind at 1. unfold ret at 1.
      unfold bind at 1. rewrite dp_epsilon_met_run. cbn [fst snd].
      rewrite Hacct. eexists. split; [reflexivity|]. reflexivity. }
  destruct Hrun as (w' & Hrun & Hw). rewrite Hrun. cbn [fst snd].
  repeat split. intros Hne. rewrite (Hw Hne). reflexivity.
Qed.

(** X11. For a batch size other than 0, [check_epsilon] returns the flag
    [eps < min_epsilon] with a message, stores eps in [current_epsilon],
    prints that message and nothing else, and changes nothing else. *)
Theorem check_epsilon_records (n b e : Z) (s : state config)
    (eps order : pyfloat) :
  b <> 0%Z ->
  acct n b (noise_multiplier (fst s)) e (delta (fst s)) = inr (eps, order) ->
  exists msg : string,
    check_epsilon acct fstr n b e s
    = (Return (float_ltb eps (min_epsilon (fst s)), msg),
       (set_current_epsilon eps (fst s),
        mk_world (files (snd s)) (write_error (snd s)) (stdin (snd s))
          (stdin_pos (snd s)) (stdout (snd s) ++ [msg])%list)).
Proof.
  intros Hb Hacct. destruct s as [o w]. cbn [fst snd] in *.
  unfold check_epsilon. apply Z.eqb_neq in Hb. rewrite Hb.
  unfold bind at 1. unfold ret at 1.
  unfold bind at 1. rewrite dp_epsilon_met_run. cbn [fst snd].
  rewrite Hacct. cbn [fst snd].
  unfold bind, modify, getattr, print, modify_world, ret.
  cbn [fst snd current_epsilon set_current_epsilon stdout files
       write_error stdin stdin_pos].
  eexists. reflexivity.
Qed.

End MethodMore.

(** ** File names, save and load *)

Lemma split_on_nonempty (sep : ascii) (s : string) : split_on sep s <> [].
Proof.
  induction s as [|c s IH]; simpl; [discriminate|].
  destruct (Ascii.eqb c sep); [discriminate|].
  destruct (split_on sep s); discriminate.
Qed.

Lemma split_on_no_sep (sep : ascii) (s : string) :
  contains (String sep "") s = false -> split_on sep s = [s].
Proof.
  induction s as [|c s IH]; simpl; [reflexivity|].
  intros Hc. apply orb_false_iff in Hc as [Hp Hrest].
  destruct (Ascii.eqb c sep) eqn:E.
  - apply Ascii.eqb_eq in E. subst c.
    destruct (ascii_dec sep sep) as [_|Hne]; [|congruence].
    destruct s; discriminate.
  - rewrite IH by exact Hrest. reflexivity.
Qed.

Lemma split_on_app (sep : ascii) (p q : string) :
  split_on sep (p +:+ String sep q) = (split_on sep p ++ split_on sep q)%list.
Proof.
  induction p as [|c p IH]; simpl.
  - rewrite Ascii.eqb_refl. reflexivity.
  - destruct (Ascii.eqb c sep); [rewrite IH; reflexivity|].
    rewrite IH. pose proof (split_on_nonempty sep p) as Hne.
    destruct (split_on sep p); [congruence|reflexivity].
Qed.

Lemma split_on_suffix (p suf : string) :
  contains "." suf = false ->
  List.last (split_on "." (p +:+ "." +:+ suf)) "" = suf
  /\ (length (split_on "." (p +:+ "." +:+ suf)) =? 1)%nat = false.
Proof.
  intros Hs. change (p +:+ "." +:+ suf) with (p +:+ String "." suf).
  rewrite split_on_app, (split_on_no_sep "." suf Hs).
  split.
  - apply last_last.
  - pose proof (split_on_nonempty "." p) as Hne.
    destruct (split_on "." p) as [|a [|b l]]; [congruence| |]; reflexivity.
Qed.

Section SaveLoad.

Context {config : Type} `{DictDiffer config}.

Lemma load_prompt_named (fuel : nat) (s : state config) (name : string) :
  model_load_file (fst s) = Some name ->
  String.eqb name "undefined" = false ->
  load_prompt fuel s = (Return tt, s).
Proof.
  intros Hn Hu. destruct fuel; simpl; unfold bind, getattr;
    rewrite Hn, Hu; reflexivity.
Qed.

(** X12. [save] with a name without a dot writes no file: it records the
    name, prints "file name must indicate type as a suffix" and returns. *)
Theorem save_without_suffix (fuel : nat) (s : state config) (name : string) :
  name <> "undefined" ->
  contains "." name = false ->
  save fuel name s
  = (Return tt,
     (set_model_save_file name (fst s),
      mk_world (files (snd s)) (write_error (snd s)) (stdin (snd s))
        (stdin_pos (snd s))
        (stdout (snd s) ++ ["file name must indicate type as a suffix"])%list)).
Proof.
  intros Hu Hdot. destruct s as [o w]. cbn [fst snd].
  apply String.eqb_neq in Hu.
  unfold save. unfold bind at 1. unfold modify at 1. cbn [fst snd].
  erewrite bind_Return;
    [|apply save_prompt_named with (name := name); [reflexivity|exact Hu]].
  unfold bind at 1. unfold getattr at 1. cbn [fst snd model_save_file set_model_save_file].
  rewrite (split_on_no_sep "." name Hdot). cbn [length Nat.eqb].
  reflexivity.
Qed.

Lemma dotted_not_undefined (p suf : string) :
  String.eqb (p +:+ "." +:+ suf) "undefined" = false.
Proof.
  apply String.eqb_neq. intros Heq.
  assert (Hs : split_on "." (p +:+ "." +:+ suf) = ["undefined"])
    by (rewrite Heq; reflexivity).
  change (p +:+ "." +:+ suf) with (p +:+ String "." suf) in Hs.
  rewrite split_on_app in Hs.
  pose proof (split_on_nonempty "." p) as Hp.
  pose proof (split_on_nonempty "." suf) as Hq.
  destruct (split_on "." p) as [|a l]; [congruence|].
  destruct (split_on "." suf) as [|b l']; [congruence|].
  destruct l; simpl in Hs; discriminate.
Qed.

Lemma save_dotted (fuel : nat) (o : Safe_KerasModel config) (w : world config)
    (p suf : string) :
  contains "." suf = false ->
  save fuel (p +:+ "." +:+ suf) (o, w)
  = (if existsb (String.eqb suf) ["h5"; "tf"]
     then
       match write_error w with
       | None =>
           (Return tt,
            (set_model_save_file (p +:+ "." +:+ suf) o,
             write_file (p +:+ "." +:+ suf) (layers o) w))
       | Some er =>
           (Return tt,
            (set_model_save_file (p +:+ "." +:+ suf) o,
             mk_world (files w) (write_error w) (stdin w) (stdin_pos w)
               (stdout w
                ++ ["saving as a " +:+ suf
                    +:+ " file gave this error message:  " +:+ exn_msg er])%list))
       end
     else
       (Return tt,
        (set_model_save_file (p +:+ "." +:+ suf) o,
         mk_world (files w) (write_error w) (stdin w) (stdin_pos w)
           (stdout w
            ++ [suf +:+ " file suffix  not supported "
                +:+ "for models of type " +:+ model_type o +:+ "." +:+ nl])%list))).
Proof.
  intros Hs. destruct (split_on_suffix p suf Hs) as [Hlast Hlen].
  unfold save. unfold bind at 1. unfold modify at 1. cbn [fst snd].
  erewrite bind_Return;
    [|apply save_prompt_named with (name := p +:+ "." +:+ suf);
      [reflexivity|apply dotted_not_undefined]].
  unfold bind at 1. unfold getattr at 1.
  cbn [fst snd model_save_file set_model_save_file].
  rewrite Hlen, Hlast.
  destruct (existsb (String.eqb suf) ["h5"; "tf"]).
  - unfold bind, gets_world, gets, print, modify_world. cbn [fst snd].
    destruct (write_error w) eqn:Ew; cbn [fst snd]; rewrite ?Ew; reflexivity.
  - unfold bind, gets, print, modify_world. cbn [fst snd]. reflexivity.
Qed.

(** X13. [save] with a suffix other than h5 and tf writes no file and
    prints that the suffix is not supported. *)
Theorem save_unsupported_suffix (fuel : nat) (s : state config)
    (p suf : string) :
  contains "." suf = false -> suf <> "h5" -> suf <> "tf" ->
  fst (save fuel (p +:+ "." +:+ suf) s) = Return tt
  /\ files (snd (snd (save fuel (p +:+ "." +:+ suf) s))) = files (snd s)
  /\ stdout (snd (snd (save fuel (p +:+ "." +:+ suf) s)))
     = (stdout (snd s)
        ++ [suf +:+ " file suffix  not supported "
            +:+ "for models of type " +:+ model_type (fst s) +:+ "." +:+ nl])%list.
Proof.
  intros Hs Hh5 Htf. destruct s as [o w]. cbn [fst snd].
  rewrite save_dotted by exact Hs.
  apply String.eqb_neq in Hh5, Htf. cbn [existsb]. rewrite Hh5, Htf.
  cbn [orb fst snd files stdout]. repeat split; reflexivity.
Qed.

(** X14. When writing the checkpoint raises, [save] returns normally: no
    file is written and the error text is printed. *)
Theorem save_swallows_write_error (fuel : nat) (s : state config)
    (p suf : string) (er : exn) :
  suf = "h5" \/ suf = "tf" ->
  write_error (snd s) = Some er ->
  fst (save fuel (p +:+ "." +:+ suf) s) = Return tt
  /\ files (snd (snd (save fuel (p +:+ "." +:+ suf) s))) = files (snd s)
  /\ stdout (snd (snd (save fuel (p +:+ "." +:+ suf) s)))
     = (stdout (snd s)
        ++ ["saving as a " +:+ suf
            +:+ " file gave this error message:  " +:+ exn_msg er])%list.
Proof.
  intros Hsuf Hw. destruct s as [o w]. cbn [fst snd] in *.
  rewrite save_dotted by (destruct Hsuf as [-> | ->]; reflexivity).
  rewrite Hw. destruct Hsuf as [-> | ->]; cbn; repeat split; reflexivity.
Qed.

(** X15. [load] of a name that ends in .h5 or .tf asks nothing and prints
    nothing: it records the name and hands on what [load_model] gives for
    that path, the model or the exception. The model read is returned,
    not installed. *)
Theorem load_supported_suffix (fuel : nat) (s : state config)
    (name : string) :
  last3 name = ".h5" \/ last3 name = ".tf" ->
  load fuel name s
  = (match load_model (files (snd s)) name with
     | inr m => Return m
     | inl err => Raise err
     end,
     (set_model_load_file name (fst s), snd s)).
Proof.
  intros Hsuf. destruct s as [o w]. cbn [fst snd].
  assert (Hu : String.eqb name "undefined" = false).
  { destruct (String.eqb_spec name "undefined") as [->|]; [|reflexivity].
    destruct Hsuf as [Hs|Hs]; vm_compute in Hs; discriminate. }
  unfold load. unfold bind at 1. unfold modify at 1. cbn [fst snd].
  erewrite bind_Return;
    [|apply load_prompt_named with (name := name); [reflexivity|exact Hu]].
  unfold bind at 1. unfold getattr at 1.
  cbn [fst snd model_load_file set_model_load_file].
  unfold bind at 1. unfold gets_world at 1. cbn [fst snd].
  assert (Hbranch :
    (if String.eqb (last3 name) ".h5"
     then lift_result (load_model (files w) name)
     else if String.eqb (last3 name) ".tf"
     then lift_result (load_model (files w) name)
     else
       bind (print ("loading from a "
                    +:+ List.last (split_on "." name) ""
                    +:+ " file is currently not supported"))
         (fun _ =>
            raise (Exn UnboundLocalError
                     "local variable 'f' referenced before assignment")))
    = lift_result (config := config) (load_model (files w) name)).
  { destruct Hsuf as [-> | ->]; reflexivity. }
  rewrite Hbranch.
  destruct (load_model (files w) name) as [err|m]; reflexivity.
Qed.

(** X16. [load] of a name that ends neither in .h5 nor in .tf prints that
    the suffix is not supported and then raises [UnboundLocalError]: the
    variable it returns was never assigned. *)
Theorem load_unsupported_suffix (fuel : nat) (s : state config)
    (name : string) :
  name <> "undefined" ->
  last3 name <> ".h5" -> last3 name <> ".tf" ->
  load fuel name s
  = (Raise (Exn UnboundLocalError
              "local variable 'f' referenced before assignment"),
     (set_model_load_file name (fst s),
      mk_world (files (snd s)) (write_error (snd s)) (stdin (snd s))
        (stdin_pos (snd s))
        (stdout (snd s)
         ++ ["loading from a " +:+ List.last (split_on "." name) ""
             +:+ " file is currently not supported"])%list)).
Proof.
  intros Hu Hh5 Htf. destruct s as [o w]. cbn [fst snd].
  apply String.eqb_neq in Hu, Hh5, Htf.
  unfold load. unfold bind at 1. unfold modify at 1. cbn [fst snd].
  erewrite bind_Return;
    [|apply load_prompt_named with (name := name); [reflexivity|exact Hu]].
  unfold bind at 1. unfold getattr at 1.
  cbn [fst snd model_load_file set_model_load_file].
  unfold bind at 1. unfold gets_world at 1. cbn [fst snd].
  rewrite Hh5, Htf.
  unfold bind, print, modify_world, raise. cbn [fst snd]. reflexivity.
Qed.

Lemma set_model_save_file_twice (a b : string) (o : Safe_KerasModel config) :
  set_model_save_file a (set_model_save_file b o) = set_model_save_file a o.
Proof. reflexivity. Qed.

(** X17. The prompt loop of [save] ends: it reads lines as long as they
    are "undefined" and stops with the first other line, which becomes
    [model_save_file]. *)
Theorem save_prompt_reads_until_named (k : nat) :
  forall (o : Safe_KerasModel config) (w : world config) (name : string)
         (fuel : nat),
    model_save_file o = Some "undefined" ->
    (forall i, (i < k)%nat -> stdin w (stdin_pos w + i)%nat = Some "undefined") ->
    stdin w (stdin_pos w + k)%nat = Some name ->
    name <> "undefined" ->
    (k < fuel)%nat ->
    exists w',
      save_prompt fuel (o, w) = (Return tt, (set_model_save_file name o, w'))
      /\ stdin_pos w' = (stdin_pos w + k + 1)%nat
      /\ files w' = files w.
Proof.
  induction k as [|k IH]; intros o w name fuel Hsave Hund Hname Hne Hfuel.
  - destruct fuel as [|fuel]; [lia|].
    rewrite Nat.add_0_r in Hname.
    cbn [save_prompt]. unfold bind at 1. unfold getattr at 1.
    cbn [fst snd]. rewrite Hsave. cbn [String.eqb Ascii.eqb Bool.eqb].
    erewrite bind_Return; [|apply input_line; exact Hname].
    unfold bind at 1. unfold modify at 1. cbn [fst snd].
    eexists. split.
    + apply save_prompt_named with (name := name); [reflexivity|].
      apply String.eqb_neq. exact Hne.
    + cbn [stdin_pos files]. split; [lia|reflexivity].
  - destruct fuel as [|fuel]; [lia|].
    assert (H0 : stdin w (stdin_pos w) = Some "undefined").
    { rewrite <- (Nat.add_0_r (stdin_pos w)). apply Hund. lia. }
    cbn [save_prompt]. unfold bind at 1. unfold getattr at 1.
    cbn [fst snd]. rewrite Hsave. cbn [String.eqb Ascii.eqb Bool.eqb].
    erewrite bind_Return; [|apply input_line; exact H0].
    unfold bind at 1. unfold modify at 1. cbn [fst snd].
    match goal with
    | |- context [save_prompt fuel (?o1, ?w1)] =>
        destruct (IH o1 w1 name fuel) as (w' & Hrun & Hpos & Hfiles)
    end.
    + reflexivity.
    + intros i Hi. cbn [stdin stdin_pos].
      replace (S (stdin_pos w) + i)%nat with (stdin_pos w + S i)%nat by lia.
      apply Hund. lia.
    + cbn [stdin stdin_pos].
      replace (S (stdin_pos w) + k)%nat with (stdin_pos w + S k)%nat by lia.
      exact Hname.
    + exact Hne.
    + lia.
    + exists w'. rewrite Hrun. rewrite set_model_save_file_twice.
      cbn [stdin_pos files] in Hpos, Hfiles.
      split; [reflexivity|]. split; [lia|exact Hfiles].
Qed.

End SaveLoad.

(** ** More on posthoc_check *)

Section ReleaseMore.

Context {config : Type} `{DictDiffer config}.

Variable acct : Z -> Z -> pyfloat -> Z -> pyfloat -> exn + (pyfloat * pyfloat).
Variable fstr : pyfloat -> string.

(** The steps of [posthoc_check] up to the call of [check_DP_used], when
    the checkpoint can be written and the one of [fit] is there. *)
Ltac run_to_provenance Hw Hfit :=
  unfold posthoc_check;
  erewrite bind_Return; [|apply save_requested; exact Hw];
  unfold bind at 1; unfold gets_world at 1; cbn [fst snd];
  let same := fresh "same" in
  let msg := fresh "msg" in
  let Etce := fresh "Etce" in
  destruct (test_checkpoint_equality _ _ _) as [same msg] eqn:Etce;
  assert (same = true) by
    (change same with (fst (same, msg)); rewrite <- Etce;
     eapply test_checkpoint_equality_loaded;
     [unfold write_file; cbn [files];
      rewrite lookup_insert_ne by discriminate; exact Hfit
     |unfold write_file; cbn [files]; apply lookup_insert_eq]);
  subst same; cbn [negb];
  unfold bind at 1; unfold gets at 1; cbn [fst snd];
  match goal with
  | |- context [bind (check_optimizer_allowed ?a) _ ?st] =>
      let r := fresh "r" in
      let d := fresh "d" in
      let Eq := fresh "Eq" in
      let Ht := fresh "Ht" in
      destruct (check_optimizer_allowed_truthy a st) as (r & d & Eq & _ & Ht);
      erewrite bind_Return; [|exact Eq];
      cbv beta iota zeta; rewrite Ht; cbn [negb fst snd]
  end;
  unfold bind at 1; unfold gets at 1;
  cbn [fst snd optimizer set_model_save_file].

(** X18. When both checkpoints load and [check_DP_used] refuses the current
    optimizer, [posthoc_check] blocks with the reason [check_DP_used] gave
    (so for an optimizer recompiled and not fitted again). *)
Theorem posthoc_check_provenance (fuel : nat) (verbose : bool)
    (s : state config) (reason : string) :
  write_error (snd s) = None ->
  is_Some (files (snd s) !! "tfsaves/fit_model.tf") ->
  check_DP_used (optimizer (fst s)) = inr (false, reason) ->
  fst (posthoc_check acct fstr fuel verbose s) = Return (PyStr reason, true).
Proof.
  intros Hw [snap Hfit] Eu.
  destruct s as [o w]; cbn [fst snd] in *.
  run_to_provenance Hw Hfit.
  rewrite Eu. unfold bind at 1. unfold lift_result at 1, ret at 1.
  cbv beta iota zeta. cbn [negb].
  unfold bind, print, modify_world, ret. reflexivity.
Qed.

(** X19. When [self.optimizer] is a string, [posthoc_check] returns no
    verdict: it raises [AttributeError], a string having no [__dict__]. *)
Theorem posthoc_check_string_optimizer (fuel : nat) (verbose : bool)
    (s : state config) (name : string) :
  write_error (snd s) = None ->
  is_Some (files (snd s) !! "tfsaves/fit_model.tf") ->
  optimizer (fst s) = StrObj name ->
  fst (posthoc_check acct fstr fuel verbose s)
  = Raise (Exn AttributeError "'str' object has no attribute '__dict__'").
Proof.
  intros Hw [snap Hfit] Eo.
  destruct s as [o w]; cbn [fst snd] in *.
  run_to_provenance Hw Hfit.
  rewrite Eo. reflexivity.
Qed.

Lemma changed_since_fit_compares (s : state config) (reason : string)
    (saved current : pyfloat) :
  saved_was_dpused (fst s) = Some true ->
  saved_reason (fst s) = Some reason ->
  saved_epsilon (fst s) = Some saved ->
  current_epsilon (fst s) = Some current ->
  changed_since_fit true reason s
  = (Return (negb (float_eqb saved current)), s).
Proof.
  intros Hsu Hsr Hse Hce.
  unfold changed_since_fit, bind, getattr, ret.
  rewrite Hsu. cbn [Bool.eqb negb]. rewrite Hsr, String.eqb_refl.
  cbn [negb]. rewrite Hse, Hce. reflexivity.
Qed.

(** X20. When [current_epsilon] no longer equals the epsilon saved by
    [fit] ([nan] is equal to nothing), [posthoc_check] blocks with
    "Optimizer config has been changed since training.". *)
Theorem posthoc_check_epsilon_drift (fuel : nat) (verbose : bool)
    (s : state config) (reason : string) (saved current : pyfloat) :
  write_error (snd s) = None ->
  is_Some (files (snd s) !! "tfsaves/fit_model.tf") ->
  check_DP_used (optimizer (fst s)) = inr (true, reason) ->
  saved_was_dpused (fst s) = Some true ->
  saved_reason (fst s) = Some reason ->
  saved_epsilon (fst s) = Some saved ->
  current_epsilon (fst s) = Some current ->
  float_eqb saved current = false ->
  fst (posthoc_check acct fstr fuel verbose s)
  = Return (PyStr "Optimizer config has been changed since training.", true).
Proof.
  intros Hw [snap Hfit] Eu Hsu Hsr Hse Hce Hne.
  destruct s as [o w]; cbn [fst snd] in *.
  run_to_provenance Hw Hfit.
  rewrite Eu. unfold bind at 1. unfold lift_result at 1, ret at 1.
  cbv beta iota zeta. cbn [negb].
  erewrite bind_Return;
    [|apply changed_since_fit_compares with (saved := saved)
        (current := current); assumption].
  rewrite Hne. reflexivity.
Qed.

(** What [save] does to the world when [posthoc_check] calls it. *)
Lemma save_requested_any (fuel : nat) (o : Safe_KerasModel config)
    (w : world config) :
  exists w1,
    save fuel "tfsaves/requested_model.tf" (o, w)
    = (Return tt, (set_model_save_file "tfsaves/requested_model.tf" o, w1))
    /\ stdin w1 = stdin w /\ stdin_pos w1 = stdin_pos w
    /\ write_error w1 = write_error w
    /\ (forall path, path <> "tfsaves/requested_model.tf" ->
          files w1 !! path = files w !! path).
Proof.
  pose proof (save_dotted fuel o w "tfsaves/requested_model" "tf" eq_refl)
    as Hs.
  change ("tfsaves/requested_model" +:+ "." +:+ "tf")
    with "tfsaves/requested_model.tf" in Hs.
  cbn [existsb String.eqb Ascii.eqb Bool.eqb orb] in Hs.
  destruct (write_error w) as [er|] eqn:Ew.
  - eexists. split; [exact Hs|]. cbn [stdin stdin_pos write_error files].
    repeat split; auto.
  - eexists. split; [exact Hs|]. unfold write_file.
    cbn [stdin stdin_pos write_error files].
    repeat split; auto. intros path Hp. apply lookup_insert_ne. congruence.
Qed.

(** X21. Without the checkpoint of [fit], [posthoc_check] blocks with the
    message of the failed load. *)
Theorem posthoc_check_without_fit_checkpoint (fuel : nat) (verbose : bool)
    (s : state config) :
  files (snd s) !! "tfsaves/fit_model.tf" = None ->
  exists detail : string,
    fst (posthoc_check acct fstr fuel verbose s)
    = Return
        (PyStr ("Error re-loading  model from tfsaves/fit_model.tf:  "
                +:+ detail),
         true).
Proof.
  intros Hfit. destruct s as [o w]; cbn [fst snd] in *.
  destruct (save_requested_any fuel o w) as (w1 & Hsave & _ & _ & _ & Hfiles).
  unfold posthoc_check.
  erewrite bind_Return; [|exact Hsave].
  unfold bind at 1. unfold gets_world at 1. cbn [fst snd].
  unfold test_checkpoint_equality, load_model.
  rewrite Hfiles by discriminate. rewrite Hfit.
  cbn [negb]. unfold bind, print, modify_world, ret. cbn [fst].
  eexists. reflexivity.
Qed.

Lemma prints_only_pure {A : Type} (m : @M config A) :
  (forall s, exists r, m s = (r, s)) -> prints_only m.
Proof.
  intros Hm o w. destruct (Hm (o, w)) as [r Hr]. exists r, [].
  rewrite Hr, app_nil_r. destruct w; reflexivity.
Qed.

Lemma prints_only_ret {A : Type} (a : A) : prints_only (config := config) (ret a).
Proof. apply prints_only_pure. intros s. eexists. reflexivity. Qed.

Lemma prints_only_gets {A : Type} (f : Safe_KerasModel config -> A) :
  prints_only (config := config) (gets f).
Proof. apply prints_only_pure. intros s. eexists. reflexivity. Qed.

Lemma prints_only_gets_world {A : Type} (f : world config -> A) :
  prints_only (config := config) (gets_world f).
Proof. apply prints_only_pure. intros s. eexists. reflexivity. Qed.

Lemma prints_only_getattr {A : Type} (name : string)
    (f : Safe_KerasModel config -> option A) :
  prints_only (config := config) (getattr name f).
Proof.
  apply prints_only_pure. intros s. unfold getattr.
  destruct (f (fst s)); eexists; reflexivity.
Qed.

Lemma prints_only_lift_result {A : Type} (r : exn + A) :
  prints_only (config := config) (lift_result r).
Proof.
  apply prints_only_pure. intros s. destruct r; eexists; reflexivity.
Qed.

Lemma prints_only_print (text : string) : prints_only (config := config) (print text).
Proof. intros o w. exists (Return tt), [text]. reflexivity. Qed.

Lemma prints_only_bind {A B : Type} (m : @M config A) (k : A -> @M config B) :
  prints_only m -> (forall a, prints_only (config := config) (k a)) -> prints_only (config := config) (bind m k).
Proof.
  intros Hm Hk o w. destruct (Hm o w) as (r & out & Hr).
  unfold bind. rewrite Hr. destruct r as [a|e|].
  - destruct (Hk a o (mk_world (files w) (write_error w) (stdin w)
                        (stdin_pos w) (stdout w ++ out)%list))
      as (r' & out' & Hr').
    exists r', (out ++ out')%list. rewrite Hr'.
    cbn [files write_error stdin stdin_pos stdout]. rewrite app_assoc.
    reflexivity.
  - eexists _, _. reflexivity.
  - eexists _, _. reflexivity.
Qed.

Lemma prints_only_dp_epsilon_met (n b e : Z) :
  prints_only (config := config) (dp_epsilon_met acct n b e).
Proof.
  apply prints_only_pure. intros s. rewrite dp_epsilon_met_run.
  destruct (acct n b _ e _); eexists; reflexivity.
Qed.

Lemma prints_only_changed_since_fit (used : bool) (reason : string) :
  prints_only (config := config) (changed_since_fit used reason).
Proof.
  unfold changed_since_fit.
  apply prints_only_bind; [apply prints_only_getattr|]. intros u.
  destruct (negb (Bool.eqb used u)); [apply prints_only_ret|].
  apply prints_only_bind; [apply prints_only_getattr|]. intros r.
  destruct (negb (String.eqb reason r)); [apply prints_only_ret|].
  apply prints_only_bind; [apply prints_only_getattr|]. intros a.
  apply prints_only_bind; [apply prints_only_getattr|]. intros b.
  apply prints_only_ret.
Qed.

Lemma prints_only_check_optimizer_allowed (opt : pyobj) :
  prints_only (config := config) (check_optimizer_allowed opt).
Proof.
  unfold check_optimizer_allowed.
  apply prints_only_bind; [apply prints_only_gets|]. intros so.
  apply prints_only_bind; [apply prints_only_print|]. intros _.
  destruct (in_strings so allowed_optimizers); apply prints_only_ret.
Qed.

(** X22. [posthoc_check] changes no attribute of the model but
    [model_save_file], reads nothing from standard input, and changes no
    file but tfsaves/requested_model.tf. *)
Theorem posthoc_check_preserves (fuel : nat) (verbose : bool)
    (s : state config) :
  fst (snd (posthoc_check acct fstr fuel verbose s))
  = set_model_save_file "tfsaves/requested_model.tf" (fst s)
  /\ stdin (snd (snd (posthoc_check acct fstr fuel verbose s)))
     = stdin (snd s)
  /\ stdin_pos (snd (snd (posthoc_check acct fstr fuel verbose s)))
     = stdin_pos (snd s)
  /\ forall path,
       path <> "tfsaves/requested_model.tf" ->
       files (snd (snd (posthoc_check acct fstr fuel verbose s))) !! path
       = files (snd s) !! path.
Proof.
  destruct s as [o w]; cbn [fst snd].
  destruct (save_requested_any fuel o w)
    as (w1 & Hsave & Hin & Hpos & _ & Hfiles).
  assert (Hrest : forall k : unit -> @M config (pyval * bool),
    (forall u, prints_only (config := config) (k u)) ->
    exists r out,
      bind (save fuel "tfsaves/requested_model.tf") k (o, w)
      = (r, (set_model_save_file "tfsaves/requested_model.tf" o,
             mk_world (files w1) (write_error w1) (stdin w1) (stdin_pos w1)
               (stdout w1 ++ out)%list))).
  { intros k Hk. erewrite bind_Return; [|exact Hsave]. apply Hk. }
  unfold posthoc_check.
  match goal with
  | |- context [bind (save _ _) ?k (o, w)] =>
      destruct (Hrest k) as (r & out & Hrun)
  end.
  { intros _.
    apply prints_only_bind; [apply prints_only_gets_world|]; intros fs.
    destruct (test_checkpoint_equality fs _ _) as [same msg].
    destruct (negb same).
    { apply prints_only_bind; [apply prints_only_print|]; intros _.
      apply prints_only_ret. }
    apply prints_only_bind; [apply prints_only_gets|]; intros opt.
    apply prints_only_bind; [apply prints_only_check_optimizer_allowed|].
    intros [allowed allowedmessage].
    destruct (negb (truthy allowed)).
    { apply prints_only_bind; [apply prints_only_print|]; intros _.
      apply prints_only_ret. }
    apply prints_only_bind; [apply prints_only_gets|]; intros opt'.
    apply prints_only_bind; [apply prints_only_lift_result|].
    intros [dpused dpusedmessage].
    destruct (negb dpused).
    { apply prints_only_bind; [apply prints_only_print|]; intros _.
      apply prints_only_ret. }
    apply prints_only_bind; [apply prints_only_changed_since_fit|].
    intros changed. destruct changed; [apply prints_only_ret|].
    apply prints_only_bind; [apply prints_only_gets|]; intros n.
    apply prints_only_bind; [apply prints_only_gets|]; intros b.
    apply prints_only_bind; [apply prints_only_gets|]; intros e.
    apply prints_only_bind; [apply prints_only_dp_epsilon_met|].
    intros [eps_met eps].
    destruct (negb eps_met);
      (apply prints_only_bind; [apply prints_only_print|]; intros _;
       apply prints_only_ret). }
  rewrite Hrun. cbn [fst snd files stdin stdin_pos]. auto.
Qed.

Lemma changed_since_fit_false (s s' : state config) (reason : string) :
  changed_since_fit true reason s = (Return false, s') ->
  saved_was_dpused (fst s) = Some true
  /\ saved_reason (fst s) = Some reason
  /\ exists saved current,
       saved_epsilon (fst s) = Some saved
       /\ current_epsilon (fst s) = Some current
       /\ float_eqb saved current = true.
Proof.
  unfold changed_since_fit, bind, getattr, ret.
  destruct (saved_was_dpused (fst s)) as [[]|]; cbn [Bool.eqb negb];
    try discriminate.
  destruct (saved_reason (fst s)) as [r|]; try discriminate.
  destruct (String.eqb reason r) eqn:Er; cbn [negb]; try discriminate.
  apply String.eqb_eq in Er. subst r.
  destruct (saved_epsilon (fst s)) as [a|]; try discriminate.
  destruct (current_epsilon (fst s)) as [b|]; try discriminate.
  intros [= Hf _]. apply negb_false_iff in Hf.
  split; [reflexivity|]. split; [reflexivity|]. exists a, b. auto.
Qed.

(** X23. [posthoc_check] allows release only if the checkpoint of [fit]
    is there, [check_DP_used] confirms the current optimizer, the values
    saved by [fit] are those of now, and the accountant, called with the
    recorded parameters, returns an epsilon below [min_epsilon]. *)
Theorem posthoc_check_release_sound (fuel : nat) (verbose : bool)
    (s : state config) (rationale : pyval) :
  fst (posthoc_check acct fstr fuel verbose s) = Return (rationale, false) ->
  is_Some (files (snd s) !! "tfsaves/fit_model.tf")
  /\ exists reason saved current eps order,
       check_DP_used (optimizer (fst s)) = inr (true, reason)
       /\ saved_was_dpused (fst s) = Some true
       /\ saved_reason (fst s) = Some reason
       /\ saved_epsilon (fst s) = Some saved
       /\ current_epsilon (fst s) = Some current
       /\ float_eqb saved current = true
       /\ acct (num_samples (fst s)) (batch_size (fst s))
            (noise_multiplier (fst s)) (epochs (fst s)) (delta (fst s))
          = inr (eps, order)
       /\ float_ltb eps (min_epsilon (fst s)) = true.
Proof.
  intros Hret. destruct s as [o w]; cbn [fst snd] in *.
  destruct (save_requested_any fuel o w)
    as (w1 & Hsave & _ & _ & _ & Hfiles).
  unfold posthoc_check in Hret.
  erewrite bind_Return in Hret; [|exact Hsave].
  unfold bind at 1 in Hret. unfold gets_world at 1 in Hret.
  cbn [fst snd] in Hret.
  destruct (test_checkpoint_equality (files w1) _ _) as [same msg] eqn:Etce.
  destruct same; cbn [negb] in Hret;
    [|unfold bind, print, modify_world, ret in Hret; cbn [fst] in Hret;
      discriminate].
  assert (Hfit : is_Some (files w !! "tfsaves/fit_model.tf")).
  { destruct (files w !! "tfsaves/fit_model.tf") eqn:E; [eauto|].
    exfalso.
    assert (Hf : fst (test_checkpoint_equality (files w1)
                        "tfsaves/fit_model.tf" "tfsaves/requested_model.tf")
                 = false).
    { apply test_checkpoint_equality_missing.
      rewrite Hfiles by discriminate. exact E. }
    rewrite Etce in Hf. discriminate. }
  split; [exact Hfit|].
  unfold bind at 1 in Hret. unfold gets at 1 in Hret. cbn [fst snd] in Hret.
  match type of Hret with
  | context [bind (check_optimizer_allowed ?a) _ ?st] =>
      destruct (check_optimizer_allowed_truthy a st) as (r & d & Eq & _ & Ht)
  end.
  erewrite bind_Return in Hret; [|exact Eq].
  cbv beta iota zeta in Hret. rewrite Ht in Hret. cbn [negb fst snd] in Hret.
  unfold bind at 1 in Hret. unfold gets at 1 in Hret.
  cbn [fst snd optimizer set_model_save_file] in Hret.
  destruct (check_DP_used (optimizer o)) as [err|[used reason]] eqn:Eu.
  { unfold bind, lift_result, raise in Hret. cbn [fst] in Hret. discriminate. }
  unfold bind at 1 in Hret. unfold lift_result at 1, ret at 1 in Hret.
  cbv beta iota zeta in Hret.
  destruct used; cbn [negb] in Hret;
    [|unfold bind, print, modify_world, ret in Hret; cbn [fst] in Hret;
      discriminate].
  unfold bind at 1 in Hret.
  match type of Hret with
  | context [changed_since_fit true reason ?st] =>
      destruct (changed_since_fit true reason st) as [[[]|e|] st'] eqn:Ec;
        try (unfold ret in Hret; cbn [fst] in Hret; discriminate);
        pose proof (changed_since_fit_false st st' reason Ec)
          as (Hsu & Hsr & a & b & Hse & Hce & Hab);
        pose proof (prints_only_changed_since_fit true reason
                      (fst st) (snd st)) as (r' & out & Hpo)
  end.
  cbn [fst snd saved_was_dpused saved_reason saved_epsilon current_epsilon
       set_model_save_file] in Hsu, Hsr, Hse, Hce, Hpo.
  rewrite Ec in Hpo. injection Hpo as _ Hst'. subst st'.
  do 3 (unfold bind at 1 in Hret; unfold gets at 1 in Hret;
        cbn [fst snd] in Hret).
  cbn [num_samples batch_size epochs set_model_save_file] in Hret.
  unfold bind at 1 in Hret. rewrite dp_epsilon_met_run in Hret.
  cbn [fst snd noise_multiplier delta min_epsilon set_model_save_file] in Hret.
  destruct (acct (num_samples o) (batch_size o) (noise_multiplier o)
              (epochs o) (delta o)) as [err|[eps order]] eqn:Ea.
  { cbn [fst] in Hret. discriminate. }
  cbn [fst snd] in Hret.
  destruct (float_ltb eps (min_epsilon o)) eqn:El; cbn [negb] in Hret;
    [|unfold bind, print, modify_world, ret in Hret; cbn [fst] in Hret;
      discriminate].
  exists reason, a, b, eps, order. auto 10.
Qed.

End ReleaseMore.

(** ** fit *)

Section FitMore.

Context {config : Type} `{DictDiffer config}.

Variable acct : Z -> Z -> pyfloat -> Z -> pyfloat -> exn + (pyfloat * pyfloat).
Variable fstr : pyfloat -> string.
Variable history : Type.
Variable keras_fit :
  model config -> pyobj -> Z -> Z -> exn + (history * model config * pyobj).

Lemma printed_printed (w : world config) (a b : list string) :
  printed (printed w a) b = printed w (a ++ b)%list.
Proof. unfold printed. cbn. rewrite app_assoc. reflexivity. Qed.

Lemma check_epsilon_run (n b e : Z) (o : Safe_KerasModel config)
    (w : world config) :
  match acct n (if (b =? 0)%Z then 1%Z else b) (noise_multiplier o) e
          (delta o) with
  | inl err =>
      exists out,
        check_epsilon acct fstr n b e (o, w) = (Raise err, (o, printed w out))
  | inr privacy =>
      exists msg out,
        check_epsilon acct fstr n b e (o, w)
        = (Return (float_ltb (fst privacy) (min_epsilon o), msg),
           (set_current_epsilon (fst privacy) o, printed w out))
  end.
Proof.
  unfold check_epsilon, printed. destruct (b =? 0)%Z.
  - destruct (acct n 1%Z (noise_multiplier o) e (delta o))
      as [err|privacy] eqn:Ea.
    + eexists.
      unfold bind at 1. unfold bind at 1. unfold print at 1, modify_world at 1.
      cbn [fst snd]. unfold ret at 1.
      unfold bind at 1. rewrite dp_epsilon_met_run. cbn [fst snd].
      rewrite Ea. reflexivity.
    + eexists _, _.
      unfold bind at 1. unfold bind at 1. unfold print at 1, modify_world at 1.
      cbn [fst snd]. unfold ret at 1.
      unfold bind at 1. rewrite dp_epsilon_met_run. cbn [fst snd].
      rewrite Ea. cbn [fst snd].
      unfold bind, modify, getattr, print, modify_world, ret.
      cbn [fst snd current_epsilon set_current_epsilon stdout files
           write_error stdin stdin_pos].
      rewrite <- app_assoc. reflexivity.
  - destruct (acct n b (noise_multiplier o) e (delta o))
      as [err|privacy] eqn:Ea.
    + exists [].
      unfold bind at 1. unfold ret at 1.
      unfold bind at 1. rewrite dp_epsilon_met_run. cbn [fst snd].
      rewrite Ea. rewrite app_nil_r. destruct w; reflexivity.
    + eexists _, _.
      unfold bind at 1. unfold ret at 1.
      unfold bind at 1. rewrite dp_epsilon_met_run. cbn [fst snd].
      rewrite Ea. cbn [fst snd].
      unfold bind, modify, getattr, print, modify_world, ret.
      cbn [fst snd current_epsilon set_current_epsilon stdout files
           write_error stdin stdin_pos].
      reflexivity.
Qed.

Lemma maybe_print (c : bool) (msg : string) (o : Safe_KerasModel config)
    (w : world config) :
  exists out,
    (if c then print msg else ret tt) (o, w) = (Return tt, (o, printed w out)).
Proof.
  destruct c.
  - exists [msg]. reflexivity.
  - exists []. unfold ret, printed. rewrite app_nil_r. destruct w; reflexivity.
Qed.

(** The steps of [fit] before the test of [refine_epsilon]. *)
Ltac run_fit_checks n b e o w Ha :=
  unfold fit;
  unfold bind at 1; unfold modify at 1; cbn [fst snd];
  let Hce := fresh "Hce" in
  pose proof (check_epsilon_run n b e (set_fit_params n b e o) w) as Hce;
  cbn [noise_multiplier delta min_epsilon set_fit_params] in Hce;
  rewrite Ha in Hce.

(** X24. When the accountant raises, [fit] raises the same exception before
    any training; the new [num_samples], [batch_size] and [epochs] are
    recorded all the same. *)
Theorem fit_propagates_accountant_error (fuel : nat) (n e b : Z)
    (refine_epsilon : bool) (s : state config) (err : exn) :
  acct n (if (b =? 0)%Z then 1%Z else b) (noise_multiplier (fst s)) e
    (delta (fst s)) = inl err ->
  exists out,
    fit acct fstr history keras_fit fuel n e b refine_epsilon s
    = (Raise err, (set_fit_params n b e (fst s), printed (snd s) out)).
Proof.
  intros Ha. destruct s as [o w]; cbn [fst snd] in *.
  run_fit_checks n b e o w Ha.
  destruct Hce as [out Hce]. exists out.
  erewrite bind_Raise; [reflexivity|exact Hce].
Qed.

(** X25. With [refine_epsilon = True], [fit] returns [None] without
    training, also when the budget is met: only the three parameters and
    [current_epsilon] change, and no checkpoint is written. *)
Theorem fit_refine_epsilon_never_trains (fuel : nat) (n e b : Z)
    (s : state config) (eps order : pyfloat) :
  acct n (if (b =? 0)%Z then 1%Z else b) (noise_multiplier (fst s)) e
    (delta (fst s)) = inr (eps, order) ->
  exists out,
    fit acct fstr history keras_fit fuel n e b true s
    = (Return None,
       (set_current_epsilon eps (set_fit_params n b e (fst s)),
        printed (snd s) out)).
Proof.
  intros Ha. destruct s as [o w]; cbn [fst snd] in *.
  run_fit_checks n b e o w Ha.
  destruct Hce as (msg & out & Hce).
  erewrite bind_Return; [|exact Hce].
  cbv beta iota zeta. cbn [fst].
  match goal with
  | |- context [bind (if ?c then print ?m else ret tt) _ (?o1, ?w1)] =>
      destruct (maybe_print c m o1 w1) as [out' Hp]
  end.
  erewrite bind_Return; [|exact Hp].
  unfold bind, print, modify_world, ret. cbn [fst snd].
  rewrite printed_printed. eexists.
  unfold printed. cbn [files write_error stdin stdin_pos stdout].
  rewrite <- app_assoc. reflexivity.
Qed.

Lemma fit_run (fuel : nat) (n e b : Z) (s : state config)
    (eps order : pyfloat) (h : history) (ls : model config) (opt : pyobj)
    (used : bool) (reason : string) :
  acct n (if (b =? 0)%Z then 1%Z else b) (noise_multiplier (fst s)) e
    (delta (fst s)) = inr (eps, order) ->
  keras_fit (layers (fst s)) (optimizer (fst s)) e b = inr (h, ls, opt) ->
  check_DP_used opt = inr (used, reason) ->
  write_error (snd s) = None ->
  exists out,
    fit acct fstr history keras_fit fuel n e b false s
    = (Return (Some h),
       (fitted_object n e b eps ls opt used reason (fst s),
        write_file "tfsaves/fit_model.tf" ls (printed (snd s) out))).
Proof.
  intros Ha Hk Hu Hw. destruct s as [o w]; cbn [fst snd] in *.
  run_fit_checks n b e o w Ha.
  destruct Hce as (msg & out & Hce).
  erewrite bind_Return; [|exact Hce].
  cbv beta iota zeta. cbn [fst].
  match goal with
  | |- context [bind (if ?c then print ?m else ret tt) _ (?o1, ?w1)] =>
      destruct (maybe_print c m o1 w1) as [out' Hp]
  end.
  erewrite bind_Return; [|exact Hp].
  rewrite printed_printed.
  do 2 (unfold bind at 1; unfold gets at 1; cbn [fst snd]).
  cbn [layers optimizer set_current_epsilon set_fit_params].
  rewrite Hk. unfold bind at 1. unfold lift_result at 1, ret at 1.
  cbv beta iota zeta.
  unfold bind at 1. unfold modify at 1. cbn [fst snd].
  pose proof (save_dotted fuel
                (set_trained ls opt
                   (set_current_epsilon eps (set_fit_params n b e o)))
                (printed w (out ++ out')) "tfsaves/fit_model" "tf" eq_refl)
    as Hs.
  change ("tfsaves/fit_model" +:+ "." +:+ "tf") with "tfsaves/fit_model.tf"
    in Hs.
  cbn [existsb String.eqb Ascii.eqb Bool.eqb orb printed write_error] in Hs.
  rewrite Hw in Hs.
  erewrite bind_Return; [|exact Hs].
  unfold bind at 1. unfold gets at 1. cbn [fst snd].
  cbn [optimizer set_model_save_file set_trained].
  rewrite Hu. unfold bind at 1. unfold lift_result at 1, ret at 1.
  unfold bind, modify, getattr, ret.
  cbn [fst snd current_epsilon set_saved set_model_save_file set_trained
       set_current_epsilon layers].
  exists (out ++ out')%list. reflexivity.
Qed.

(** X26. A [fit] that succeeds installs the trained layers and optimizer,
    writes them to tfsaves/fit_model.tf, and records what [check_DP_used]
    says of the optimizer and the epsilon of [check_epsilon]; the
    [batch_size] recorded is the one given. *)
Theorem fit_records (fuel : nat) (n e b : Z) (s : state config)
    (eps order : pyfloat) (h : history) (ls : model config) (opt : pyobj)
    (used : bool) (reason : string) :
  acct n (if (b =? 0)%Z then 1%Z else b) (noise_multiplier (fst s)) e
    (delta (fst s)) = inr (eps, order) ->
  keras_fit (layers (fst s)) (optimizer (fst s)) e b = inr (h, ls, opt) ->
  check_DP_used opt = inr (used, reason) ->
  write_error (snd s) = None ->
  exists out,
    fit acct fstr history keras_fit fuel n e b false s
    = (Return (Some h),
       (fitted_object n e b eps ls opt used reason (fst s),
        write_file "tfsaves/fit_model.tf" ls (printed (snd s) out))).
Proof.
  intros Ha Hk Hu Hw.
  destruct (fit_run fuel n e b s eps order h ls opt used reason Ha Hk Hu Hw)
    as [out Hfit].
  exists out. exact Hfit.
Qed.

(** X27. [posthoc_check] right after a successful [fit] with a batch size
    other than 0 and a DP optimizer that ran: the verdict is blocked
    exactly when the epsilon of the accountant is not below
    [min_epsilon]. *)
Theorem fit_then_posthoc_check_verdict (fuel fuel' : nat) (verbose : bool)
    (n e b : Z) (s : state config)
    (eps order : pyfloat) (h : history) (ls : model config) (opt : pyobj)
    (reason : string) :
  b <> 0%Z ->
  acct n b (noise_multiplier (fst s)) e (delta (fst s)) = inr (eps, order) ->
  is_nan eps = false ->
  keras_fit (layers (fst s)) (optimizer (fst s)) e b = inr (h, ls, opt) ->
  check_DP_used opt = inr (true, reason) ->
  write_error (snd s) = None ->
  exists msg,
    fst (bind (fit acct fstr history keras_fit fuel n e b false)
           (fun _ => posthoc_check acct fstr fuel' verbose) s)
    = Return (PyStr msg, negb (float_ltb eps (min_epsilon (fst s)))).
Proof.
  intros Hb Ha Hnan Hk Hu Hw.
  assert (Ha' : acct n (if (b =? 0)%Z then 1%Z else b)
                  (noise_multiplier (fst s)) e (delta (fst s))
                = inr (eps, order)).
  { apply Z.eqb_neq in Hb. rewrite Hb. exact Ha. }
  destruct (fit_run fuel n e b s eps order h ls opt true reason
              Ha' Hk Hu Hw) as [out Hfit].
  unfold bind at 1. rewrite Hfit.
  destruct s as [o w]; cbn [fst snd] in *.
  rewrite (posthoc_check_budget acct fstr fuel' verbose _ reason eps);
    try reflexivity; try assumption.
  - cbn [fst num_samples batch_size epochs noise_multiplier delta min_epsilon
         fitted_object set_saved_epsilon set_saved set_model_save_file
         set_trained set_current_epsilon set_fit_params].
    rewrite Ha. cbn [fst].
    destruct (float_ltb eps (min_epsilon o)); eexists; reflexivity.
  - cbn [snd write_file files]. rewrite lookup_insert_eq. eauto.
Qed.

(** X28. After [fit] with [batch_size = 0], [posthoc_check] calls the
    accountant with batch size 0 and raises what it raises there. *)
Theorem fit_zero_batch_then_posthoc_check (fuel fuel' : nat) (verbose : bool)
    (n e : Z) (s : state config)
    (eps order : pyfloat) (h : history) (ls : model config) (opt : pyobj)
    (reason : string) (err : exn) :
  acct n 1%Z (noise_multiplier (fst s)) e (delta (fst s)) = inr (eps, order) ->
  acct n 0%Z (noise_multiplier (fst s)) e (delta (fst s)) = inl err ->
  is_nan eps = false ->
  keras_fit (layers (fst s)) (optimizer (fst s)) e 0%Z = inr (h, ls, opt) ->
  check_DP_used opt = inr (true, reason) ->
  write_error (snd s) = None ->
  fst (bind (fit acct fstr history keras_fit fuel n e 0%Z false)
         (fun _ => posthoc_check acct fstr fuel' verbose) s)
  = Raise err.
Proof.
  intros Ha1 Ha0 Hnan Hk Hu Hw.
  destruct (fit_run fuel n e 0%Z s eps order h ls opt true reason
              Ha1 Hk Hu Hw) as [out Hfit].
  unfold bind at 1. rewrite Hfit.
  destruct s as [o w]; cbn [fst snd] in *.
  rewrite (posthoc_check_budget acct fstr fuel' verbose _ reason eps);
    try reflexivity; try assumption.
  - cbn [fst num_samples batch_size epochs noise_multiplier delta min_epsilon
         fitted_object set_saved_epsilon set_saved set_model_save_file
         set_trained set_current_epsilon set_fit_params].
    rewrite Ha0. reflexivity.
  - cbn [snd write_file files]. rewrite lookup_insert_eq. eauto.
Qed.

End FitMore.

(** ** The scenario *)

Import Scenario.

(** C1. The integrity check does not block. After [fit], the checkpoint
    on disk holds the trained weights; the first kernel entry of the live
    model is then changed from 5 to 9, and [posthoc_check] still answers
    that the model may be released: [test_checkpoint_equality] answers
    [True] for the two checkpoints, which differ in that weight. *)
Theorem posthoc_check_releases_tampered_model :
  files (snd tampered) !! "tfsaves/fit_model.tf" = Some one_layer
  /\ layers (fst tampered) = one_layer_changed
  /\ one_layer <> one_layer_changed
  /\ fst (test_checkpoint_equality
            (<["tfsaves/requested_model.tf" := layers (fst tampered)]>
               (files (snd tampered)))
            "tfsaves/fit_model.tf" "tfsaves/requested_model.tf")
     = true
  /\ fst (posthoc_check accountant show 0 true tampered)
     = Return (PyStr allow_release, false).
Proof.
  repeat split; try (vm_compute; reflexivity).
  vm_compute. discriminate.
Qed.

(** C2. [same_weights] does not see a changed weight: the two models have
    one layer with two weight groups each and differ in the first entry of
    the first group, and the answer is a match, in either order. *)
Theorem same_weights_misses_changed_element :
  same_weights one_layer one_layer_changed = (true, "weights match")
  /\ same_weights one_layer_changed one_layer = (true, "weights match").
Proof. split; vm_compute; reflexivity. Qed.

(** C3. [posthoc_check] never stops at the allow-list. With a plain SGD
    object bound after fitting, the verdict comes from the next check and
    its rationale does not name the optimizer; with a DP optimizer whose
    class is outside the allow-list, the model is released. *)
Theorem posthoc_check_skips_allow_list :
  in_strings plain_sgd allowed_optimizers = false
  /\ fst (posthoc_check accountant show 0 true (with_optimizer plain_sgd fitted))
     = Return
         (PyStr
            "optimizer does not contain key _was_dp_gradients_called so is not DP.",
          true)
  /\ in_strings vectorized_dp_sgd allowed_optimizers = false
  /\ fst (posthoc_check accountant show 0 true
            (with_optimizer vectorized_dp_sgd fitted))
     = Return (PyStr allow_release, false).
Proof. repeat split; vm_compute; reflexivity. Qed.

(** C4. [check_optimizer_allowed] returns the reason first and the flag
    [disclosive] second: for an identity of the allow-list the pair is the
    text "... allowed" and [False], for another identity the text
    "... is not allowed" and [True]. *)
Theorem check_optimizer_allowed_returns_reason_first :
  fst (check_optimizer_allowed
         (StrObj "tensorflow_privacy.DPKerasSGDOptimizer")
         (named "tensorflow_privacy.DPKerasSGDOptimizer"))
  = Return
      (PyStr "optimizer tensorflow_privacy.DPKerasSGDOptimizer allowed",
       PyBool false)
  /\ fst (check_optimizer_allowed (StrObj "SGD") (named "SGD"))
     = Return (PyStr "optimizer SGD is not allowed", PyBool true).
Proof. split; vm_compute; reflexivity. Qed.

Lemma dp_epsilon_met_ok_iff_below_witness :
  accountant 250 25 (noise_multiplier untrained) 20 (delta untrained)
    = inr (Finite 5, num 2)
  /\ min_epsilon untrained = Finite 10
  /\ exists ok : bool,
       dp_epsilon_met accountant 250 25 20 (untrained, quiet)
       = (Return (ok, Finite 5), (untrained, quiet))
       /\ (ok = true <-> (5 < 10)%Q)
       /\ ((5 == 10)%Q -> ok = false).
Proof.
  split; [reflexivity|]. split; [reflexivity|].
  apply (dp_epsilon_met_ok_iff_below accountant 250 25 20 (untrained, quiet)
           5 10 (num 2)); reflexivity.
Defined.

(** C6, as stated, fails: with [batch_size = 0] the returned message is,
    character for character, the one returned for [batch_size = 1]; the
    substitution is told on standard output only. *)
Lemma check_epsilon_zero_batch_message_silent :
  fst (check_epsilon accountant show 250 0 20 (untrained, quiet))
  = Return
      (true,
       "The requirements for DP are met, current epsilon is: 5.0."
       +:+ "Calculated from the parameters:  Num Samples = 250, "
       +:+ "batch_size = 1, epochs = 20." +:+ nl)
  /\ fst (check_epsilon accountant show 250 0 20 (untrained, quiet))
     = fst (check_epsilon accountant show 250 1 20 (untrained, quiet))
  /\ stdout (snd (snd (check_epsilon accountant show 250 0 20
                         (untrained, quiet))))
     = [ "Division by zero setting batch_size =1";
         "The requirements for DP are met, current epsilon is: 5.0."
         +:+ "Calculated from the parameters:  Num Samples = 250, "
         +:+ "batch_size = 1, epochs = 20." +:+ nl ].
Proof. repeat split; vm_compute; reflexivity. Qed.

Lemma check_epsilon_zero_batch_substitutes_witness :
  accountant 250 1 (noise_multiplier untrained) 20 (delta untrained)
    = inr (num 5, num 2)
  /\ check_epsilon accountant show 250 0 20 (untrained, quiet)
     = check_epsilon accountant show 250 1 20
         (untrained,
          mk_world (files quiet) (write_error quiet) (stdin quiet)
            (stdin_pos quiet)
            (stdout quiet ++ ["Division by zero setting batch_size =1"])%list)
  /\ exists msg : string,
       fst (check_epsilon accountant show 250 0 20 (untrained, quiet))
       = Return (float_ltb (num 5) (min_epsilon untrained), msg)
       /\ stdout (snd (snd (check_epsilon accountant show 250 0 20
                              (untrained, quiet))))
          = (stdout quiet
             ++ ["Division by zero setting batch_size =1"; msg])%list
       /\ current_epsilon
            (fst (snd (check_epsilon accountant show 250 0 20
                         (untrained, quiet))))
          = Some (num 5).
Proof.
  split; [reflexivity|].
  apply (check_epsilon_zero_batch_substitutes accountant show 250 20
           (untrained, quiet) (num 5) (num 2)).
  reflexivity.
Defined.

(** C7, as stated, fails: a snapshot with a [nan] weight is not equal to
    itself for [same_weights]. *)
Lemma same_weights_not_reflexive_on_nan :
  same_weights diverged diverged = (false, "dimension 0 of layer 0 differs").
Proof. vm_compute. reflexivity. Qed.

Lemma comparators_reflexive_without_nan_witness :
  diff_quiet one_layer
  /\ nan_free one_layer
  /\ same_configs one_layer one_layer = (true, "configurations match")
  /\ same_weights one_layer one_layer = (true, "weights match").
Proof.
  assert (Hq : diff_quiet one_layer) by (repeat constructor).
  assert (Hn : nan_free one_layer) by (repeat constructor).
  split; [exact Hq|]. split; [exact Hn|].
  exact (comparators_reflexive_without_nan one_layer Hq Hn).
Defined.

(** C8, as stated, fails: the models have 1 and 2 layers and the message
    is "different numbers of layers", which states neither count. *)
Lemma same_configs_message_without_counts :
  same_configs one_layer two_layers = (false, "different numbers of layers")
  /\ ~ states_counts one_layer two_layers
         (snd (same_configs one_layer two_layers)).
Proof.
  split; [vm_compute; reflexivity|].
  unfold states_counts. intros [Hone _]. vm_compute in Hone. discriminate.
Qed.

Lemma same_configs_layer_count_mismatch_witness :
  length one_layer <> length two_layers
  /\ same_configs one_layer two_layers = (false, "different numbers of layers").
Proof.
  assert (Hne : length one_layer <> length two_layers) by (simpl; lia).
  split; [exact Hne|].
  exact (same_configs_layer_count_mismatch one_layer two_layers Hne).
Defined.

Lemma posthoc_check_zero_batch_unguarded_witness :
  batch_size (fst (with_batch_size 0 fitted)) = 0%Z
  /\ fst (posthoc_check accountant show 0 true (with_batch_size 0 fitted))
     = Raise (Exn ZeroDivisionError "division by zero").
Proof.
  split; [reflexivity|].
  pose proof (posthoc_check_zero_batch_unguarded accountant show 0 true
                (with_batch_size 0 fitted)
                (" value of optimizer._was_dp_gradients_called is True, "
                 +:+ "so DP variant of optimizer has been run")
                (num 5)) as W.
  assert (H1 : write_error (snd (with_batch_size 0 fitted)) = None)
    by (vm_compute; reflexivity).
  assert (H2 : is_Some (files (snd (with_batch_size 0 fitted))
                          !! "tfsaves/fit_model.tf"))
    by (exists one_layer; vm_compute; reflexivity).
  specialize (W H1 H2).
  repeat (match type of W with
          | ?P -> _ =>
              let Hp := fresh in
              assert (Hp : P) by (vm_compute; reflexivity);
              specialize (W Hp)
          end).
  exact W.
Defined.

(** C10, as stated, fails: on an input that has ended, [load] called with
    "undefined" stops, with the [EOFError] of [input]; on an input of two
    lines it stops after reading both. *)
Lemma load_undefined_stops_at_end_of_input :
  fst (load 10 "undefined" (untrained, quiet))
  = Raise (Exn EOFError "EOF when reading a line")
  /\ fst (load 10 "undefined" (untrained, two_answers))
     = Raise (Exn EOFError "EOF when reading a line")
  /\ stdin_pos (snd (snd (load 10 "undefined" (untrained, two_answers))))
     = 2%nat.
Proof. repeat split; vm_compute; reflexivity. Qed.

Lemma load_undefined_does_not_terminate_witness :
  (forall i, (i < 3)%nat -> is_Some (stdin hesitant (stdin_pos hesitant + i)%nat))
  /\ fst (load 3 "undefined" (untrained, hesitant)) = OutOfFuel
  /\ model_load_file (fst (snd (load 3 "undefined" (untrained, hesitant))))
     = Some "undefined"
  /\ model_save_file (fst (snd (load 3 "undefined" (untrained, hesitant))))
     = Some "model.tf"
  /\ stdin_pos (snd (snd (load 3 "undefined" (untrained, hesitant))))
     = 3%nat.
Proof.
  assert (Hin : forall i, (i < 3)%nat ->
                  is_Some (stdin hesitant (stdin_pos hesitant + i)%nat)).
  { intros i _. cbn [hesitant stdin stdin_pos Nat.add].
    destruct (i <? 2)%nat; eauto. }
  split; [exact Hin|].
  exact (load_undefined_does_not_terminate 3 (untrained, hesitant) Hin).
Defined.

(** [save] asks again only while the answer is "undefined": its loop ends
    with the first other line. *)
Example save_prompt_terminates :
  fst (save 1 "undefined" (untrained, answering "model.tf")) = Return tt.
Proof. vm_compute. reflexivity. Qed.

(** ** The further properties on the scenario *)

Lemma same_configs_first_difference_witness :
  same_configs ([] ++ dense (kernel 5 6 7 8) (bias 1 1) :: [])%list
    ([] ++ dense_units3 :: [])%list
  = (false,
     "Layer 0 configs differ in 1 places:" +:+ nl
     +:+ "parameter units changed from 3 to 2 after model was fitted."
     +:+ nl).
Proof.
  etransitivity.
  - apply (same_configs_first_difference [] [] [] []
             (dense (kernel 5 6 7 8) (bias 1 1)) dense_units3).
    + constructor.
    + reflexivity.
    + vm_compute. discriminate.
  - vm_compute. reflexivity.
Defined.

Lemma same_weights_group_count_mismatch_witness :
  same_weights ([] ++ dense (kernel 5 6 7 8) (bias 1 1) :: [])%list
    ([] ++ dense_no_bias :: [])%list
  = (false, "layer 0 not the same size.").
Proof.
  apply (same_weights_group_count_mismatch [] [] [] []
           (dense (kernel 5 6 7 8) (bias 1 1)) dense_no_bias).
  - constructor.
  - constructor.
  - reflexivity.
  - vm_compute. discriminate.
Defined.

Lemma check_DP_used_implies_is_DP_witness :
  check_optimizer_is_DP vectorized_dp_sgd
  = inr (true,
         "optimizer does  contain key _was_dp_gradients_called"
         +:+ " so should be DP.").
Proof.
  apply (check_DP_used_implies_is_DP vectorized_dp_sgd used_reason).
  vm_compute. reflexivity.
Defined.

Lemma dp_epsilon_met_not_on_nan_witness :
  is_nan (num 5) = false /\ num 5 <> PosInf
  /\ is_nan (min_epsilon (fst (untrained, quiet))) = false
  /\ min_epsilon (fst (untrained, quiet)) <> NegInf.
Proof.
  apply (dp_epsilon_met_not_on_nan accountant 250 25 20 (untrained, quiet)
           (num 5)).
  reflexivity.
Defined.

Lemma check_epsilon_propagates_witness :
  fst (check_epsilon accountant show 0 25 20 (untrained, quiet))
  = Raise (Exn ZeroDivisionError "division by zero")
  /\ fst (snd (check_epsilon accountant show 0 25 20 (untrained, quiet)))
     = fst (untrained, quiet)
  /\ (25%Z <> 0%Z ->
      snd (check_epsilon accountant show 0 25 20 (untrained, quiet))
      = (untrained, quiet)).
Proof.
  apply (check_epsilon_propagates accountant show 0 25 20 (untrained, quiet)).
  reflexivity.
Defined.

Lemma check_epsilon_records_witness :
  exists msg : string,
    check_epsilon accountant show 250 25 20 (untrained, quiet)
    = (Return (float_ltb (num 5) (min_epsilon (fst (untrained, quiet))), msg),
       (set_current_epsilon (num 5) (fst (untrained, quiet)),
        mk_world (files (snd (untrained, quiet)))
          (write_error (snd (untrained, quiet)))
          (stdin (snd (untrained, quiet)))
          (stdin_pos (snd (untrained, quiet)))
          (stdout (snd (untrained, quiet)) ++ [msg])%list)).
Proof.
  apply (check_epsilon_records accountant show 250 25 20 (untrained, quiet)
           (num 5) (num 2)).
  - discriminate.
  - reflexivity.
Defined.

Lemma save_without_suffix_witness :
  save 0 "model" (untrained, quiet)
  = (Return tt,
     (set_model_save_file "model" (fst (untrained, quiet)),
      mk_world (files (snd (untrained, quiet)))
        (write_error (snd (untrained, quiet)))
        (stdin (snd (untrained, quiet)))
        (stdin_pos (snd (untrained, quiet)))
        (stdout (snd (untrained, quiet))
         ++ ["file name must indicate type as a suffix"])%list)).
Proof.
  apply (save_without_suffix 0 (untrained, quiet) "model").
  - discriminate.
  - reflexivity.
Defined.

Lemma save_unsupported_suffix_witness :
  fst (save 0 ("model" +:+ "." +:+ "pkl") (untrained, quiet)) = Return tt
  /\ files (snd (snd (save 0 ("model" +:+ "." +:+ "pkl") (untrained, quiet))))
     = files (snd (untrained, quiet))
  /\ stdout (snd (snd (save 0 ("model" +:+ "." +:+ "pkl") (untrained, quiet))))
     = (stdout (snd (untrained, quiet))
        ++ ["pkl" +:+ " file suffix  not supported "
            +:+ "for models of type "
            +:+ model_type (fst (untrained, quiet)) +:+ "." +:+ nl])%list.
Proof.
  apply (save_unsupported_suffix 0 (untrained, quiet) "model" "pkl").
  - reflexivity.
  - discriminate.
  - discriminate.
Defined.

Lemma save_swallows_write_error_witness :
  fst (save 0 ("model" +:+ "." +:+ "tf") (untrained, full_disk)) = Return tt
  /\ files (snd (snd (save 0 ("model" +:+ "." +:+ "tf")
                        (untrained, full_disk))))
     = files (snd (untrained, full_disk))
  /\ stdout (snd (snd (save 0 ("model" +:+ "." +:+ "tf")
                         (untrained, full_disk))))
     = (stdout (snd (untrained, full_disk))
        ++ ["saving as a " +:+ "tf"
            +:+ " file gave this error message:  "
            +:+ exn_msg (Exn OSError "No space left on device")])%list.
Proof.
  apply (save_swallows_write_error 0 (untrained, full_disk) "model" "tf"
           (Exn OSError "No space left on device")).
  - right. reflexivity.
  - reflexivity.
Defined.

Lemma load_supported_suffix_witness :
  load 0 "tfsaves/fit_model.tf" fitted
  = (Return one_layer,
     (set_model_load_file "tfsaves/fit_model.tf" (fst fitted), snd fitted)).
Proof.
  etransitivity.
  - apply (load_supported_suffix 0 fitted "tfsaves/fit_model.tf").
    right. reflexivity.
  - vm_compute. reflexivity.
Defined.

Lemma load_unsupported_suffix_witness :
  load 0 "model.pkl" (untrained, quiet)
  = (Raise (Exn UnboundLocalError
              "local variable 'f' referenced before assignment"),
     (set_model_load_file "model.pkl" (fst (untrained, quiet)),
      mk_world (files (snd (untrained, quiet)))
        (write_error (snd (untrained, quiet)))
        (stdin (snd (untrained, quiet)))
        (stdin_pos (snd (untrained, quiet)))
        (stdout (snd (untrained, quiet))
         ++ ["loading from a " +:+ List.last (split_on "." "model.pkl") ""
             +:+ " file is currently not supported"])%list)).
Proof.
  apply (load_unsupported_suffix 0 (untrained, quiet) "model.pkl").
  - discriminate.
  - vm_compute. discriminate.
  - vm_compute. discriminate.
Defined.

Lemma save_prompt_reads_until_named_witness :
  exists w',
    save_prompt 3 (set_model_save_file "undefined" untrained, hesitant)
    = (Return tt,
       (set_model_save_file "model.tf"
          (set_model_save_file "undefined" untrained), w'))
    /\ stdin_pos w' = (stdin_pos hesitant + 2 + 1)%nat
    /\ files w' = files hesitant.
Proof.
  apply (save_prompt_reads_until_named 2
           (set_model_save_file "undefined" untrained) hesitant "model.tf" 3).
  - reflexivity.
  - intros i Hi. simpl.
    destruct i as [|[|i]]; [reflexivity|reflexivity|lia].
  - reflexivity.
  - discriminate.
  - lia.
Defined.

Lemma posthoc_check_provenance_witness :
  fst (posthoc_check accountant show 0 true (with_optimizer dp_sgd fitted))
  = Return
      (PyStr "optimizer has been changed but fit() has not been rerun.",
       true).
Proof.
  apply (posthoc_check_provenance accountant show 0 true
           (with_optimizer dp_sgd fitted)).
  - vm_compute. reflexivity.
  - exists one_layer. vm_compute. reflexivity.
  - vm_compute. reflexivity.
Defined.

Lemma posthoc_check_string_optimizer_witness :
  fst (posthoc_check accountant show 0 true
         (with_optimizer (StrObj "SGD") fitted))
  = Raise (Exn AttributeError "'str' object has no attribute '__dict__'").
Proof.
  apply (posthoc_check_string_optimizer accountant show 0 true
           (with_optimizer (StrObj "SGD") fitted) "SGD").
  - vm_compute. reflexivity.
  - exists one_layer. vm_compute. reflexivity.
  - vm_compute. reflexivity.
Defined.

Lemma posthoc_check_epsilon_drift_witness :
  fst (posthoc_check accountant show 0 true
         (set_current_epsilon (num 7) (fst fitted), snd fitted))
  = Return (PyStr "Optimizer config has been changed since training.", true).
Proof.
  apply (posthoc_check_epsilon_drift accountant show 0 true
           (set_current_epsilon (num 7) (fst fitted), snd fitted)
           used_reason (num 5) (num 7)).
  - vm_compute. reflexivity.
  - exists one_layer. vm_compute. reflexivity.
  - vm_compute. reflexivity.
  - vm_compute. reflexivity.
  - vm_compute. reflexivity.
  - vm_compute. reflexivity.
  - vm_compute. reflexivity.
  - vm_compute. reflexivity.
Defined.

Lemma posthoc_check_without_fit_checkpoint_witness :
  exists detail : string,
    fst (posthoc_check accountant show 0 true (untrained, quiet))
    = Return
        (PyStr ("Error re-loading  model from tfsaves/fit_model.tf:  "
                +:+ detail),
         true).
Proof.
  apply (posthoc_check_without_fit_checkpoint accountant show 0 true
           (untrained, quiet)).
  reflexivity.
Defined.

Lemma posthoc_check_release_sound_witness :
  is_Some (files (snd fitted) !! "tfsaves/fit_model.tf")
  /\ exists reason saved current eps order,
       check_DP_used (optimizer (fst fitted)) = inr (true, reason)
       /\ saved_was_dpused (fst fitted) = Some true
       /\ saved_reason (fst fitted) = Some reason
       /\ saved_epsilon (fst fitted) = Some saved
       /\ current_epsilon (fst fitted) = Some current
       /\ float_eqb saved current = true
       /\ accountant (num_samples (fst fitted)) (batch_size (fst fitted))
            (noise_multiplier (fst fitted)) (epochs (fst fitted))
            (delta (fst fitted))
          = inr (eps, order)
       /\ float_ltb eps (min_epsilon (fst fitted)) = true.
Proof.
  apply (posthoc_check_release_sound accountant show 0 true fitted
           (PyStr allow_release)).
  vm_compute. reflexivity.
Defined.

Lemma fit_propagates_accountant_error_witness :
  exists out,
    fit accountant show unit train 0 0 20 25 false (untrained, quiet)
    = (Raise (Exn ZeroDivisionError "division by zero"),
       (set_fit_params 0 25 20 (fst (untrained, quiet)),
        printed (snd (untrained, quiet)) out)).
Proof.
  apply (fit_propagates_accountant_error accountant show unit train 0 0 20 25
           false (untrained, quiet)).
  reflexivity.
Defined.

Lemma fit_refine_epsilon_never_trains_witness :
  exists out,
    fit accountant show unit train 0 250 20 25 true (untrained, quiet)
    = (Return None,
       (set_current_epsilon (num 5)
          (set_fit_params 250 25 20 (fst (untrained, quiet))),
        printed (snd (untrained, quiet)) out)).
Proof.
  apply (fit_refine_epsilon_never_trains accountant show unit train 0 250 20 25
           (untrained, quiet) (num 5) (num 2)).
  reflexivity.
Defined.

Lemma fit_records_witness :
  exists out,
    fit accountant show unit train 0 250 20 25 false (untrained, quiet)
    = (Return (Some tt),
       (fitted_object 250 20 25 (num 5) one_layer
          (Obj "<DPKerasSGDOptimizer object>" (<[flag := PyBool true]> {[ flag := PyBool false ]}))
          true used_reason (fst (untrained, quiet)),
        write_file "tfsaves/fit_model.tf" one_layer
          (printed (snd (untrained, quiet)) out))).
Proof.
  apply (fit_records accountant show unit train 0 250 20 25 (untrained, quiet)
           (num 5) (num 2) tt).
  - reflexivity.
  - reflexivity.
  - vm_compute. reflexivity.
  - reflexivity.
Defined.

Lemma fit_then_posthoc_check_verdict_witness :
  exists msg,
    fst (bind (fit accountant show unit train 0 250 20 25 false)
           (fun _ => posthoc_check accountant show 0 true) (untrained, quiet))
    = Return (PyStr msg,
              negb (float_ltb (num 5) (min_epsilon (fst (untrained, quiet))))).
Proof.
  apply (fit_then_posthoc_check_verdict accountant show unit train 0 0 true
           250 20 25 (untrained, quiet) (num 5) (num 2) tt one_layer
           (Obj "<DPKerasSGDOptimizer object>"
              (<[flag := PyBool true]> {[ flag := PyBool false ]}))
           used_reason).
  - discriminate.
  - reflexivity.
  - reflexivity.
  - reflexivity.
  - vm_compute. reflexivity.
  - reflexivity.
Defined.

Lemma fit_zero_batch_then_posthoc_check_witness :
  fst (bind (fit accountant show unit train 0 250 20 0 false)
         (fun _ => posthoc_check accountant show 0 true) (untrained, quiet))
  = Raise (Exn ZeroDivisionError "division by zero").
Proof.
  apply (fit_zero_batch_then_posthoc_check accountant show unit train 0 0 true
           250 20 (untrained, quiet) (num 5) (num 2) tt one_layer
           (Obj "<DPKerasSGDOptimizer object>"
              (<[flag := PyBool true]> {[ flag := PyBool false ]}))
           used_reason (Exn ZeroDivisionError "division by zero")).
  - reflexivity.
  - reflexivity.
  - reflexivity.
  - reflexivity.
  - vm_compute. reflexivity.
  - reflexivity.
Defined.

Lemma same_configs_true_iff_witness :
  fst (same_configs one_layer one_layer_changed) = true.
Proof.
  apply (proj2 (same_configs_true_iff one_layer one_layer_changed)).
  split; [reflexivity|].
  repeat constructor.
Defined.

Lemma same_weights_true_iff_witness :
  fst (same_weights two_layers
         [dense (kernel 9 9 9 9) (bias 9 9); dense (kernel 0 0 0 0) (bias 3 3)])
  = true.
Proof.
  apply (proj2 (same_weights_true_iff two_layers
                  [dense (kernel 9 9 9 9) (bias 9 9);
                   dense (kernel 0 0 0 0) (bias 3 3)])).
  split; [reflexivity|]. split.
  - repeat constructor.
  - repeat constructor.
Defined.

Lemma test_checkpoint_equality_false_iff_witness :
  fst (test_checkpoint_equality (files (snd fitted))
         "tfsaves/fit_model.tf" "tfsaves/requested_model.tf") = false.
Proof.
  apply (proj2 (test_checkpoint_equality_false_iff (files (snd fitted))
                  "tfsaves/fit_model.tf" "tfsaves/requested_model.tf")).
  right. vm_compute. reflexivity.
Defined.

Lemma check_DP_used_confirms_iff_witness :
  check_DP_used (Obj "<DPKerasAdamOptimizer object>" {[ flag := PyInt 1 ]})
  = inr (true, used_reason).
Proof.
  apply (proj2 (check_DP_used_confirms_iff
                  (Obj "<DPKerasAdamOptimizer object>" {[ flag := PyInt 1 ]})
                  used_reason)).
  exists "<DPKerasAdamOptimizer object>", {[ flag := PyInt 1 ]}, (PyInt 1).
  split; [reflexivity|]. split; [vm_compute; reflexivity|].
  split; [right; reflexivity|reflexivity].
Defined.

Lemma check_optimizer_allowed_only_strings_witness :
  fst (check_optimizer_allowed plain_sgd
         (named "tensorflow_privacy.DPKerasAdamOptimizer"))
  = Return
      (PyStr "optimizer tensorflow_privacy.DPKerasAdamOptimizer allowed",
       PyBool false).
Proof.
  apply (proj2 (check_optimizer_allowed_only_strings plain_sgd
                  (named "tensorflow_privacy.DPKerasAdamOptimizer")
                  "optimizer tensorflow_privacy.DPKerasAdamOptimizer allowed")).
  exists "tensorflow_privacy.DPKerasAdamOptimizer".
  split; [reflexivity|]. split; [|reflexivity].
  vm_compute. tauto.
Defined.

Lemma posthoc_check_preserves_witness :
  files (snd (snd (posthoc_check accountant show 0 true tampered)))
    !! "tfsaves/fit_model.tf"
  = files (snd tampered) !! "tfsaves/fit_model.tf".
Proof.
  apply (posthoc_check_preserves accountant show 0 true tampered).
  discriminate.
Defined.
